(** * Mood-based song recommender: the request pipeline of [app.py]

    A shallow embedding of [src/app.py] (the Flask handler [api_predict],
    its tables and the serving-time [preprocess_text]) and of the
    training-time [preprocess_text] of [src/training/train_model.py],
    followed by the properties the specification states about them.

    Layout:
    - [Py]     the fragment of Python the two files use: JSON values,
               exceptions, truthiness, [in], [dict.get], subscripts,
               [str.lower], [str.isalnum], [str.isalpha], [" ".join];
    - [Nltk]   the three NLTK objects the code imports (tokenizer, stemmer,
               stopword set) as an interface, and a reference instance;
    - [App]    [src/app.py];
    - [Train]  [src/training/train_model.py];
    - [Provider], [Fixture], [Spec]  the provider's track descriptors, test
               doubles for the collaborators, and the tables and input
               classes the specification names;
    - [Startup], [TrainModel], [TrainFixture]  the module-level code of
               [app.py] that loads the artifacts and the client,
               [train_model()], and test doubles for its libraries;
    - the theorems. *)

From Stdlib Require Import String Ascii List ZArith QArith Bool Lia.
From Stdlib Require Import DecimalString.
Import ListNotations.
Local Open Scope string_scope.
Local Open Scope Z_scope.
Set Warnings "-register-all".

(* ===================================================================== *)
(** ** Python values and built-ins                                        *)
(* ===================================================================== *)

Module Py.

(** What [request.get_json()] and the provider client hand to the code:
    JSON data as Python objects.  A [dict] keeps its insertion order, so it
    is an association list; its keys are strings, as in JSON. *)
Inductive value : Type :=
| None_
| Bool (b : bool)
| Int (z : Z)
| Float (q : Q)
| Str (s : string)
| List (l : list value)
| Dict (kvs : list (string * value)).

(** The exceptions the handler can meet.  A [KeyError] carries the key
    that was not found, a string or ([KeyError_int]) an integer.  [Failure]
    stands for whatever an external collaborator (vectorizer, classifier,
    provider client) raises; all of them are subclasses of [Exception]. *)
Inductive exn : Type :=
| AttributeError (type_name attr : string)
| TypeError (msg : string)
| KeyError (key : string)
| KeyError_int (key : Z)
| IndexError (msg : string)
| Failure (msg : string).

(** Computations that may raise. *)
Definition result (A : Type) : Type := (exn + A)%type.

Definition type_name (v : value) : string :=
  match v with
  | None_ => "NoneType"
  | Bool _ => "bool"
  | Int _ => "int"
  | Float _ => "float"
  | Str _ => "str"
  | List _ => "list"
  | Dict _ => "dict"
  end.

(** [repr(z)] of an integer: its decimal digits. *)
Definition repr_int (z : Z) : string := NilZero.string_of_int (Z.to_int z).

(** [str(e)], the text the handler puts in a 500 body.  For a [KeyError]
    it is the [repr] of the key: quoted for a string, bare digits for an
    integer. *)
Definition str_of_exn (e : exn) : string :=
  match e with
  | AttributeError t a =>
      "'" ++ t ++ "' object has no attribute '" ++ a ++ "'"
  | TypeError m => m
  | KeyError k => "'" ++ k ++ "'"
  | KeyError_int k => repr_int k
  | IndexError m => m
  | Failure m => m
  end.

(** Truth value of an object, as [if x] and [not x] compute it. *)
Definition truthy (v : value) : bool :=
  match v with
  | None_ => false
  | Bool b => b
  | Int z => negb (z =? 0)
  | Float q => negb (Qnum q =? 0)
  | Str s => negb (s =? "")%string
  | List l => match l with [] => false | _ => true end
  | Dict kvs => match kvs with [] => false | _ => true end
  end.

(** [v == s] for a string literal [s]: only the very string is equal. *)
Definition eq_str (v : value) (s : string) : bool :=
  match v with
  | Str t => (t =? s)%string
  | _ => false
  end.

(** Lookup in a [dict] with string keys. *)
Fixpoint lookup {A : Type} (d : list (string * A)) (k : string) : option A :=
  match d with
  | [] => None
  | (k', v) :: d' => if (k' =? k)%string then Some v else lookup d' k
  end.

(** [d.get(k, default)] for a string key. *)
Definition get_default {A : Type} (d : list (string * A)) (k : string)
    (default : A) : A :=
  match lookup d k with
  | Some x => x
  | None => default
  end.

(** [s in v] for a string [s]: key test on a dict, element test on a list,
    substring test on a string; the other types are not containers. *)
Definition contains (v : value) (s : string) : result bool :=
  match v with
  | Dict kvs => inr (match lookup kvs s with Some _ => true | None => false end)
  | List l => inr (existsb (fun x => eq_str x s) l)
  | Str t => inr (match String.index 0 s t with Some _ => true | None => false end)
  | _ => inl (TypeError ("argument of type '" ++ type_name v ++ "' is not iterable"))
  end.

(** [v.get(k, default)]: only a dict has the method. *)
Definition get (v : value) (k : string) (default : value) : result value :=
  match v with
  | Dict kvs => inr (get_default kvs k default)
  | _ => inl (AttributeError (type_name v) "get")
  end.

(** [v[k]] with a string key. *)
Definition getitem (v : value) (k : string) : result value :=
  match v with
  | Dict kvs =>
      match lookup kvs k with
      | Some x => inr x
      | None => inl (KeyError k)
      end
  | List _ => inl (TypeError "list indices must be integers or slices, not str")
  | Str _ => inl (TypeError "string indices must be integers, not 'str'")
  | _ => inl (TypeError ("'" ++ type_name v ++ "' object is not subscriptable"))
  end.

(** [v[0]].  The keys of a JSON object are strings, so the integer [0] is
    never among them and the lookup raises [KeyError(0)]. *)
Definition getitem0 (v : value) : result value :=
  match v with
  | List (x :: _) => inr x
  | List [] => inl (IndexError "list index out of range")
  | Str (String c _) => inr (Str (String c ""))
  | Str EmptyString => inl (IndexError "string index out of range")
  | Dict _ => inl (KeyError_int 0)
  | _ => inl (TypeError ("'" ++ type_name v ++ "' object is not subscriptable"))
  end.

(** What [for x in v] ranges over. *)
Definition iter (v : value) : result (list value) :=
  match v with
  | List l => inr l
  | Dict kvs => inr (map (fun kv => Str (fst kv)) kvs)
  | Str s => inr (map (fun c => Str (String c "")) (list_ascii_of_string s))
  | _ => inl (TypeError ("'" ++ type_name v ++ "' object is not iterable"))
  end.

(** *** Strings

    Text is modelled as ASCII: on code points below 128 the three [str]
    methods below are Python's; other bytes are left alone by [lower] and
    are neither letters nor digits here. *)

Definition is_upper (c : ascii) : bool :=
  let n := N_of_ascii c in ((65 <=? n) && (n <=? 90))%N.
Definition is_lower (c : ascii) : bool :=
  let n := N_of_ascii c in ((97 <=? n) && (n <=? 122))%N.
Definition is_digit (c : ascii) : bool :=
  let n := N_of_ascii c in ((48 <=? n) && (n <=? 57))%N.
Definition is_alpha (c : ascii) : bool := is_upper c || is_lower c.
Definition is_alnum (c : ascii) : bool := is_alpha c || is_digit c.
(** [str.isspace] on ASCII: blank, tab, newline, vertical tab, form feed,
    carriage return and the four separators 28..31. *)
Definition is_space (c : ascii) : bool :=
  let n := N_of_ascii c in
  ((n =? 32) || ((9 <=? n) && (n <=? 13)) || ((28 <=? n) && (n <=? 31)))%N.

Definition lower_char (c : ascii) : ascii :=
  if is_upper c then ascii_of_N (N_of_ascii c + 32) else c.

Fixpoint all_chars (p : ascii -> bool) (s : string) : bool :=
  match s with
  | EmptyString => true
  | String c s' => p c && all_chars p s'
  end.

(** [s.lower()] *)
Fixpoint lower (s : string) : string :=
  match s with
  | EmptyString => EmptyString
  | String c s' => String (lower_char c) (lower s')
  end.

(** [s.isalnum()]: every character is a letter or a digit, and there is at
    least one. *)
Definition isalnum (s : string) : bool :=
  negb (s =? "")%string && all_chars is_alnum s.

(** [s.isalpha()] *)
Definition isalpha (s : string) : bool :=
  negb (s =? "")%string && all_chars is_alpha s.

(** [" ".join(l)] *)
Fixpoint join (l : list string) : string :=
  match l with
  | [] => ""
  | [w] => w
  | w :: l' => w ++ " " ++ join l'
  end.

(** [w in s] for a set of strings [s]. *)
Definition mem (w : string) (s : list string) : bool :=
  existsb (String.eqb w) s.

(** [d.get(k, default)] on a constant table whose keys are strings, for an
    arbitrary key object: a list or a dict cannot be hashed, and any other
    object that is not a string equals no key. *)
Definition table_get (d : list (string * string)) (k : value)
    (default : string) : result string :=
  match k with
  | Str s => inr (get_default d s default)
  | List _ => inl (TypeError "unhashable type: 'list'")
  | Dict _ => inl (TypeError "unhashable type: 'dict'")
  | _ => inr default
  end.

End Py.

(* ===================================================================== *)
(** ** The NLTK objects the code imports                                  *)
(* ===================================================================== *)

Module Nltk.

(** [word_tokenize], [PorterStemmer().stem] and
    [set(stopwords.words('english'))] belong to NLTK, not to this
    repository: the code is modelled over any three such objects. *)
Record t : Type := Make {
  word_tokenize : string -> list string;
  stem : string -> string;
  stop_words : list string
}.

(** *** A reference instance

    Used where a statement needs the library's answer on a concrete word.
    - the stemmer is Porter's algorithm with NLTK's extensions, the mode
      [PorterStemmer()] selects by default;
    - the stopword set is NLTK's English list;
    - the tokenizer is [split]: on a text made of alphanumeric words and
      blanks [word_tokenize] returns the words in order (Treebank's fused
      contractions such as [cannot] apart), and the reference instance is
      only ever applied to such texts. *)

Fixpoint split_from (cur : string) (s : string) : list string :=
  match s with
  | EmptyString => if (cur =? "")%string then [] else [cur]
  | String c s' =>
      if Py.is_space c
      then (if (cur =? "")%string then split_from "" s'
            else cur :: split_from "" s')
      else split_from (cur ++ String c "") s'
  end.

Definition split (s : string) : list string := split_from "" s.

Definition english_stopwords : list string :=
  [ "i"; "me"; "my"; "myself"; "we"; "our"; "ours"; "ourselves"; "you";
    "you're"; "you've"; "you'll"; "you'd"; "your"; "yours"; "yourself";
    "yourselves"; "he"; "him"; "his"; "himself"; "she"; "she's"; "her";
    "hers"; "herself"; "it"; "it's"; "its"; "itself"; "they"; "them";
    "their"; "theirs"; "themselves"; "what"; "which"; "who"; "whom";
    "this"; "that"; "that'll"; "these"; "those"; "am"; "is"; "are"; "was";
    "were"; "be"; "been"; "being"; "have"; "has"; "had"; "having"; "do";
    "does"; "did"; "doing"; "a"; "an"; "the"; "and"; "but"; "if"; "or";
    "because"; "as"; "until"; "while"; "of"; "at"; "by"; "for"; "with";
    "about"; "against"; "between"; "into"; "through"; "during"; "before";
    "after"; "above"; "below"; "to"; "from"; "up"; "down"; "in"; "out";
    "on"; "off"; "over"; "under"; "again"; "further"; "then"; "once";
    "here"; "there"; "when"; "where"; "why"; "how"; "all"; "any"; "both";
    "each"; "few"; "more"; "most"; "other"; "some"; "such"; "no"; "nor";
    "not"; "only"; "own"; "same"; "so"; "than"; "too"; "very"; "s"; "t";
    "can"; "will"; "just"; "don"; "don't"; "should"; "should've"; "now";
    "d"; "ll"; "m"; "o"; "re"; "ve"; "y"; "ain"; "aren"; "aren't";
    "couldn"; "couldn't"; "didn"; "didn't"; "doesn"; "doesn't"; "hadn";
    "hadn't"; "hasn"; "hasn't"; "haven"; "haven't"; "isn"; "isn't"; "ma";
    "mightn"; "mightn't"; "mustn"; "mustn't"; "needn"; "needn't"; "shan";
    "shan't"; "shouldn"; "shouldn't"; "wasn"; "wasn't"; "weren";
    "weren't"; "won"; "won't"; "wouldn"; "wouldn't" ].

(** **** Porter's stemmer, NLTK's default mode *)
Module Porter.

Definition pool : list (string * string) :=
  [ ("sky", "sky"); ("skies", "sky"); ("dying", "die"); ("lying", "lie");
    ("tying", "tie"); ("news", "news"); ("innings", "inning");
    ("inning", "inning"); ("outings", "outing"); ("outing", "outing");
    ("cannings", "canning"); ("canning", "canning"); ("howe", "howe");
    ("proceed", "proceed"); ("exceed", "exceed"); ("succeed", "succeed") ].

Definition is_vowel (c : ascii) : bool :=
  existsb (Ascii.eqb c) ["a"; "e"; "i"; "o"; "u"]%char.

(** [_is_consonant(word, i)]: a [y] is a consonant at the start of the
    word and after a vowel. *)
Fixpoint is_consonant (word : string) (i : nat) : bool :=
  match String.get i word with
  | Some c =>
      if is_vowel c then false
      else if Ascii.eqb c "y"
           then match i with
                | O => true
                | S j => negb (is_consonant word j)
                end
           else true
  | None => true
  end.

(** The word as a sequence of consonants ([true]) and vowels. *)
Definition cv_sequence (stem : string) : list bool :=
  map (is_consonant stem) (seq 0 (String.length stem)).

Fixpoint count_vc (l : list bool) : nat :=
  match l with
  | [] => O
  | b :: l' =>
      match b, l' with
      | false, true :: _ => S (count_vc l')
      | _, _ => count_vc l'
      end
  end.

(** [_measure(stem)]: the number of vowel-consonant sequences. *)
Definition measure (stem : string) : nat := count_vc (cv_sequence stem).

Definition has_positive_measure (stem : string) : bool :=
  (0 <? measure stem)%nat.

Definition measure_gt_1 (stem : string) : bool := (1 <? measure stem)%nat.

Definition contains_vowel (stem : string) : bool :=
  existsb negb (cv_sequence stem).

Definition ends_with (word suffix : string) : bool :=
  let n := String.length word in
  let k := String.length suffix in
  (k <=? n)%nat && (substring (n - k) k word =? suffix)%string.

(** [word[:-k]] for [k] at most the length. *)
Definition drop_last (k : nat) (word : string) : string :=
  substring 0 (String.length word - k) word.

(** [word[-k:]] for [k] at most the length. *)
Definition last_chars (k : nat) (word : string) : string :=
  substring (String.length word - k) k word.

Definition char_at_end (k : nat) (word : string) : option ascii :=
  String.get (String.length word - k) word.

Definition ends_double_consonant (word : string) : bool :=
  let n := String.length word in
  (2 <=? n)%nat
  && match char_at_end 1 word, char_at_end 2 word with
     | Some a, Some b => Ascii.eqb a b
     | _, _ => false
     end
  && is_consonant word (n - 1).

Definition ends_cvc (word : string) : bool :=
  let n := String.length word in
  ((3 <=? n)%nat
   && is_consonant word (n - 3)
   && negb (is_consonant word (n - 2))
   && is_consonant word (n - 1)
   && negb (existsb (String.eqb (last_chars 1 word)) ["w"; "x"; "y"]))
  || ((n =? 2)%nat
      && negb (is_consonant word 0)
      && is_consonant word 1).

Definition replace_suffix (word suffix replacement : string) : string :=
  drop_last (String.length suffix) word ++ replacement.

(** A rule: suffix, replacement, and an optional condition on the stem. *)
Definition rule : Type := (string * string * option (string -> bool))%type.

Definition holds (condition : option (string -> bool)) (stem : string) : bool :=
  match condition with
  | None => true
  | Some c => c stem
  end.

(** [_apply_rule_list]: the first rule whose suffix matches decides, also
    when its condition fails. *)
Fixpoint apply_rule_list (word : string) (rules : list rule) : string :=
  match rules with
  | [] => word
  | (suffix, replacement, condition) :: rules' =>
      if (suffix =? "*d")%string && ends_double_consonant word
      then let stem := drop_last 2 word in
           if holds condition stem then stem ++ replacement else word
      else if ends_with word suffix
      then let stem := replace_suffix word suffix "" in
           if holds condition stem then stem ++ replacement else word
      else apply_rule_list word rules'
  end.

Definition step1a (word : string) : string :=
  if ends_with word "ies" && (String.length word =? 4)%nat
  then replace_suffix word "ies" "ie"
  else apply_rule_list word
         [ ("sses", "ss", None); ("ies", "i", None);
           ("ss", "ss", None); ("s", "", None) ].

Definition step1b (word : string) : string :=
  if ends_with word "ied"
  then (if (String.length word =? 4)%nat
        then replace_suffix word "ied" "ie"
        else replace_suffix word "ied" "i")
  else if ends_with word "eed"
  then (let stem := replace_suffix word "eed" "" in
        if (0 <? measure stem)%nat then stem ++ "ee" else word)
  else
    let after (intermediate_stem : string) : string :=
      let last := last_chars 1 intermediate_stem in
      apply_rule_list intermediate_stem
        [ ("at", "ate", None); ("bl", "ble", None); ("iz", "ize", None);
          ("*d", last,
           Some (fun _ => negb (existsb (String.eqb last) ["l"; "s"; "z"])));
          ("", "e",
           Some (fun stem => (measure stem =? 1)%nat && ends_cvc stem)) ] in
    if ends_with word "ed" && contains_vowel (replace_suffix word "ed" "")
    then after (replace_suffix word "ed" "")
    else if ends_with word "ing" && contains_vowel (replace_suffix word "ing" "")
    then after (replace_suffix word "ing" "")
    else word.

Definition step1c (word : string) : string :=
  apply_rule_list word
    [ ("y", "i",
       Some (fun stem => (1 <? String.length stem)%nat
                         && is_consonant stem (String.length stem - 1))) ].

Definition step2_rules (word : string) : list rule :=
  let pm := Some has_positive_measure in
  [ ("ational", "ate", pm); ("tional", "tion", pm); ("enci", "ence", pm);
    ("anci", "ance", pm); ("izer", "ize", pm); ("bli", "ble", pm);
    ("alli", "al", pm); ("entli", "ent", pm); ("eli", "e", pm);
    ("ousli", "ous", pm); ("ization", "ize", pm); ("ation", "ate", pm);
    ("ator", "ate", pm); ("alism", "al", pm); ("iveness", "ive", pm);
    ("fulness", "ful", pm); ("ousness", "ous", pm); ("aliti", "al", pm);
    ("iviti", "ive", pm); ("biliti", "ble", pm); ("fulli", "ful", pm);
    ("logi", "log", Some (fun _ => has_positive_measure (drop_last 3 word))) ].

(** [_step2] calls itself once more after rewriting [alli] to [al]; the
    word it is called on then no longer ends in [alli]. *)
Definition step2 (word : string) : string :=
  if ends_with word "alli"
     && has_positive_measure (replace_suffix word "alli" "")
  then let word' := replace_suffix word "alli" "al" in
       apply_rule_list word' (step2_rules word')
  else apply_rule_list word (step2_rules word).

Definition step3 (word : string) : string :=
  let pm := Some has_positive_measure in
  apply_rule_list word
    [ ("icate", "ic", pm); ("ative", "", pm); ("alize", "al", pm);
      ("iciti", "ic", pm); ("ical", "ic", pm); ("ful", "", pm);
      ("ness", "", pm) ].

Definition step4 (word : string) : string :=
  let m1 := Some measure_gt_1 in
  apply_rule_list word
    [ ("al", "", m1); ("ance", "", m1); ("ence", "", m1); ("er", "", m1);
      ("ic", "", m1); ("able", "", m1); ("ible", "", m1); ("ant", "", m1);
      ("ement", "", m1); ("ment", "", m1); ("ent", "", m1);
      ("ion", "",
       Some (fun stem => measure_gt_1 stem
                         && existsb (String.eqb (last_chars 1 stem)) ["s"; "t"]));
      ("ou", "", m1); ("ism", "", m1); ("ate", "", m1); ("iti", "", m1);
      ("ous", "", m1); ("ive", "", m1); ("ize", "", m1) ].

Definition step5a (word : string) : string :=
  if ends_with word "e"
  then let stem := replace_suffix word "e" "" in
       if (1 <? measure stem)%nat then stem
       else if (measure stem =? 1)%nat && negb (ends_cvc stem) then stem
       else word
  else word.

Definition step5b (word : string) : string :=
  apply_rule_list word
    [ ("ll", "l", Some (fun _ => measure_gt_1 (drop_last 1 word))) ].

(** [PorterStemmer().stem(word)] *)
Definition stem (word : string) : string :=
  let stem := Py.lower word in
  match Py.lookup pool word with
  | Some s => s
  | None =>
      if (String.length word <=? 2)%nat then stem
      else step5b (step5a (step4 (step3 (step2 (step1c (step1b (step1a stem)))))))
  end.

End Porter.

Definition reference : t :=
  {| word_tokenize := split;
     stem := Porter.stem;
     stop_words := english_stopwords |}.

End Nltk.

(* ===================================================================== *)
(** ** [src/app.py]                                                       *)
(* ===================================================================== *)

Module App.

Import Py.

(** *** Tables *)

Definition MOOD_MAP : list (Z * string) :=
  [ (0, "sadness"); (1, "joy"); (2, "love");
    (3, "anger"); (4, "fear"); (5, "surprise") ].

Definition MOOD_KEYWORDS : list (string * string) :=
  [ ("joy", "happy"); ("sadness", "sad"); ("anger", "angry");
    ("love", "love"); ("fear", "dark"); ("surprise", "surprise");
    ("uplift", "uplifting") ].

Definition LANGUAGE_KEYWORDS : list (string * string) :=
  [ ("en", "english"); ("te", "telugu"); ("hi", "hindi") ].

(** *** [preprocess_text] *)

Section PreprocessText.

Variable nltk : Nltk.t.

(** The comprehension
    [[stemmer.stem(word) for word in tokens
      if word.isalnum() and word not in stop_words]]. *)
Fixpoint processed_tokens (tokens : list string) : list string :=
  match tokens with
  | [] => []
  | word :: tokens' =>
      if isalnum word && negb (mem word (Nltk.stop_words nltk))
      then Nltk.stem nltk word :: processed_tokens tokens'
      else processed_tokens tokens'
  end.

(** [text.lower()] is the first thing evaluated: an object that is not a
    string has no such method. *)
Definition preprocess_text (text : value) : result string :=
  match text with
  | Str s =>
      let tokens := Nltk.word_tokenize nltk (lower s) in
      inr (join (processed_tokens tokens))
  | _ => inl (AttributeError (type_name text) "lower")
  end.

End PreprocessText.

(** *** The steps of [api_predict] *)

(** [MOOD_MAP.get(prediction, "joy")] *)
Fixpoint lookup_label (d : list (Z * string)) (k : Z) : option string :=
  match d with
  | [] => None
  | (k', v) :: d' => if k' =? k then Some v else lookup_label d' k
  end.

Definition mood (prediction : Z) : string :=
  match lookup_label MOOD_MAP prediction with
  | Some m => m
  | None => "joy"
  end.

(** Step 3: the [if user_preference == "uplift" and mood in [...]]. *)
Definition search_mood (user_preference : value) (mood : string) : string :=
  if eq_str user_preference "uplift" && mem mood ["sadness"; "anger"; "fear"]
  then "uplift"
  else mood.

(** Step 4. *)
Definition mood_keyword (search_mood : string) : string :=
  get_default MOOD_KEYWORDS search_mood "happy".

Definition lang_keyword (language_choice : value) : result string :=
  table_get LANGUAGE_KEYWORDS language_choice "english".

Definition and_then {A B : Type} (r : result A) (k : A -> result B) : result B :=
  match r with
  | inl e => inl e
  | inr a => k a
  end.

Notation "x <-- r ; k" := (and_then r (fun x => k))
  (at level 61, r at next level, right associativity).

(** The query [f"{mood_keyword} {lang_keyword}"] built from the search
    mood and the language the caller chose. *)
Definition query (search_mood : string) (language_choice : value)
    : result string :=
  let mood_keyword := mood_keyword search_mood in
  lang_keyword <-- lang_keyword language_choice;
  inr (mood_keyword ++ " " ++ lang_keyword).

(** Step 6. *)
Definition placeholder : string :=
  "https://placehold.co/100x100/222/fff?text=No+Art".

(** The dictionary appended for one track; its entries are evaluated in
    the order they are written. *)
Definition song (track : value) : result value :=
  id <-- getitem track "id";
  name <-- getitem track "name";
  artists <-- getitem track "artists";
  artist0 <-- getitem0 artists;
  artist <-- getitem artist0 "name";
  album <-- getitem track "album";
  images <-- getitem album "images";
  image_url <-- (if truthy images
                 then (image0 <-- getitem0 images; getitem image0 "url")
                 else inr (Str placeholder));
  preview_url <-- getitem track "preview_url";
  external_urls <-- getitem track "external_urls";
  spotify_url <-- getitem external_urls "spotify";
  inr (Dict [ ("id", id); ("song_name", name); ("artist", artist);
              ("image_url", image_url); ("preview_url", preview_url);
              ("spotify_url", spotify_url) ]).

(** The loop [for track in ...: songs.append({...})], started with
    [songs = []]: a track that raises ends the loop and the request. *)
Fixpoint songs_loop (tracks : list value) (songs : list value)
    : result (list value) :=
  match tracks with
  | [] => inr songs
  | track :: tracks' =>
      s <-- song track;
      songs_loop tracks' (songs ++ [s])%list
  end.

Definition songs (results : value) : result (list value) :=
  tracks <-- getitem results "tracks";
  items <-- getitem tracks "items";
  l <-- iter items;
  songs_loop l [].

(** *** The handler *)

(** The collaborators [api_predict] reaches through module globals. *)
Record services : Type := {
  V : Type;
  nltk : Nltk.t;
  vectorizer_transform : string -> result V;
  (** [model.predict(vectorized_text)[0]] *)
  model_predict : V -> result Z;
  (** [sp.search(q=..., type=..., limit=..., market=...)] *)
  sp_search : string -> string -> Z -> string -> result value
}.

(** The calls a request makes, in the order it makes them. *)
Inductive event : Type :=
| Normalize (text : value)
| Vectorize (processed_text : string)
| Classify
| Search (q type : string) (limit : Z) (market : string).

(** A handler step: it may raise, and it extends the log of calls. *)
Definition M (A : Type) : Type := list event -> result A * list event.

Definition ret {A : Type} (a : A) : M A := fun log => (inr a, log).

Definition bind {A B : Type} (m : M A) (k : A -> M B) : M B :=
  fun log =>
    match m log with
    | (inl e, log') => (inl e, log')
    | (inr a, log') => k a log'
    end.

(** A step of the handler's own code. *)
Definition lift {A : Type} (r : result A) : M A := fun log => (r, log).

(** A call to a pipeline step or to the provider. *)
Definition call {A : Type} (ev : event) (r : result A) : M A :=
  fun log => (r, (log ++ [ev])%list).

Notation "x <- m ;; k" := (bind m (fun x => k))
  (at level 61, m at next level, right associativity).

Definition response : Type := (value * Z)%type.

Definition bad_request : response :=
  (Dict [("error", Str "Invalid request. 'message' is required.")], 400).

Section Handler.

Variable sv : services.

(** The body of the [try]. *)
Definition api_predict_try (data : value) : M response :=
  if negb (truthy data) then ret bad_request else
  has_message <- lift (contains data "message") ;;
  if negb has_message then ret bad_request else
  text <- lift (get data "message" None_) ;;
  language_choice <- lift (get data "language" (Str "en")) ;;
  user_preference <- lift (get data "preference" (Str "match")) ;;
  processed_text <- call (Normalize text) (preprocess_text (nltk sv) text) ;;
  vectorized_text <- call (Vectorize processed_text)
                          (vectorizer_transform sv processed_text) ;;
  prediction <- call Classify (model_predict sv vectorized_text) ;;
  let mood := mood prediction in
  let search_mood := search_mood user_preference mood in
  query <- lift (query search_mood language_choice) ;;
  results <- call (Search query "track" 12 "IN")
                  (sp_search sv query "track" 12 "IN") ;;
  songs <- lift (songs results) ;;
  ret (Dict [("mood", Str search_mood); ("songs", List songs)], 200).

(** [api_predict]: [data] is what [request.get_json()] returned; the
    result is the response and the calls made on the way.
    [except Exception as e] turns any exception into a 500. *)
Definition api_predict (data : value) : response * list event :=
  match api_predict_try data [] with
  | (inr resp, log) => (resp, log)
  | (inl e, log) => ((Dict [("error", Str (str_of_exn e))], 500), log)
  end.

End Handler.

End App.

(* ===================================================================== *)
(** ** [src/training/train_model.py]                                      *)
(* ===================================================================== *)

Module Train.

Import Py.

Section PreprocessText.

Variable nltk : Nltk.t.

(** [preprocess_text(text, stop_words)]: the stopword set is an argument
    here, the tokenizer the imported one; nothing is stemmed. *)
Definition preprocess_text (text : value) (stop_words : list string) : string :=
  match text with
  | Str s =>
      let text := lower s in
      let tokens := Nltk.word_tokenize nltk text in
      let tokens := filter isalpha tokens in
      let tokens := filter (fun word => negb (mem word stop_words)) tokens in
      join tokens
  | _ => ""
  end.

End PreprocessText.

End Train.

(* ===================================================================== *)
(** ** The provider's answer and a test double                            *)
(* ===================================================================== *)

Module Provider.

Import Py.

(** A track descriptor of the search provider: an id, a name, a list of
    artists with at least one entry, the album's image URLs (possibly
    none), a preview URL that may be null, and the external URL.  [extra]
    holds whatever further keys the provider sends along. *)
Record track : Type := {
  id : string;
  name : string;
  artist : string;
  other_artists : list string;
  images : list string;
  preview_url : option string;
  spotify : string;
  extra : list (string * value)
}.

Definition artist_value (a : string) : value := Dict [("name", Str a)].

Definition image_value (url : string) : value := Dict [("url", Str url)].

Definition preview_value (p : option string) : value :=
  match p with
  | Some u => Str u
  | None => None_
  end.

(** The descriptor as the client library returns it. *)
Definition to_value (t : track) : value :=
  Dict ([ ("album", Dict [("images", List (map image_value (images t)))]);
          ("artists", List (map artist_value (artist t :: other_artists t)));
          ("external_urls", Dict [("spotify", Str (spotify t))]);
          ("id", Str (id t));
          ("name", Str (name t));
          ("preview_url", preview_value (preview_url t)) ]
        ++ extra t)%list.

(** The answer to a track search. *)
Definition results (l : list track) : value :=
  Dict [("tracks", Dict [("items", List (map to_value l))])].

(** The record the caller is to receive for a track: the first image, or
    the placeholder when the album has none; the preview URL as it came. *)
Definition record (t : track) : value :=
  Dict [ ("id", Str (id t));
         ("song_name", Str (name t));
         ("artist", Str (artist t));
         ("image_url", Str (hd App.placeholder (images t)));
         ("preview_url", preview_value (preview_url t));
         ("spotify_url", Str (spotify t)) ].

End Provider.

(** Deterministic stand-ins for the frozen artifacts and the provider: the
    vectorizer hands the text on, the classifier answers a fixed label and
    the provider a fixed list of tracks. *)
Module Fixture.

Import Py.

Definition no_art : Provider.track :=
  {| Provider.id := "4uLU6hMCjMI75M1A2tKUQC";
     Provider.name := "Kal Ho Naa Ho";
     Provider.artist := "Sonu Nigam";
     Provider.other_artists := [];
     Provider.images := [];
     Provider.preview_url := None;
     Provider.spotify := "https://open.spotify.com/track/4uLU6hMCjMI75M1A2tKUQC";
     Provider.extra := [("popularity", Int 61)] |}.

Definition with_art : Provider.track :=
  {| Provider.id := "0VjIjW4GlUZAMYd2vXMi3b";
     Provider.name := "Blinding Lights";
     Provider.artist := "The Weeknd";
     Provider.other_artists := ["Guest"];
     Provider.images := ["https://i.scdn.co/image/a"; "https://i.scdn.co/image/b"];
     Provider.preview_url := Some "https://p.scdn.co/mp3-preview/x";
     Provider.spotify := "https://open.spotify.com/track/0VjIjW4GlUZAMYd2vXMi3b";
     Provider.extra := [] |}.

(** A descriptor whose only image has an empty URL. *)
Definition empty_art : Provider.track :=
  {| Provider.id := "3n3Ppam7vgaVa1iaRUc9Lp";
     Provider.name := "Mr. Brightside";
     Provider.artist := "The Killers";
     Provider.other_artists := [];
     Provider.images := [""];
     Provider.preview_url := None;
     Provider.spotify := "https://open.spotify.com/track/3n3Ppam7vgaVa1iaRUc9Lp";
     Provider.extra := [] |}.

Definition tracks : list Provider.track := [no_art; with_art].

Definition services (label : Z) : App.services :=
  {| App.V := string;
     App.nltk := Nltk.reference;
     App.vectorizer_transform := fun processed_text => inr processed_text;
     App.model_predict := fun _ => inr label;
     App.sp_search := fun _ _ _ _ => inr (Provider.results tracks) |}.

End Fixture.

(** The tables of the query builder as the specification lists them. *)
Module Spec.

Definition moods : list (string * string) :=
  [ ("sadness", "sad"); ("joy", "happy"); ("love", "love");
    ("anger", "angry"); ("fear", "dark"); ("surprise", "surprise");
    ("uplift", "uplifting") ].

Definition languages : list (string * string) :=
  [ ("en", "english"); ("te", "telugu"); ("hi", "hindi") ].

(** The six labels of the classifier, by ordinal. *)
Definition mood_labels : list string :=
  [ "sadness"; "joy"; "love"; "anger"; "fear"; "surprise" ].

(** A request carries a message when its body is an object whose
    [message] is a string with at least one character. *)
Definition has_message (data : Py.value) : bool :=
  match data with
  | Py.Dict kvs =>
      match Py.lookup kvs "message" with
      | Some (Py.Str s) => negb (s =? "")%string
      | _ => false
      end
  | _ => false
  end.

(** A text "of lowercase alphanumeric tokens outside the stopword set":
    lowercasing leaves it alone and each of its tokens passes the filter
    of the normalizer. *)
Definition clean_text (nltk : Nltk.t) (x : string) : bool :=
  (Py.lower x =? x)%string
  && forallb (fun w => Py.isalnum w
                       && negb (Py.mem w (Nltk.stop_words nltk)))
             (Nltk.word_tokenize nltk x).

End Spec.

(* ===================================================================== *)
(** ** [src/app.py], module level: loading the artifacts and the client   *)
(* ===================================================================== *)

Module Startup.

Import Py.

(** [os.path.join(a, b)] for a relative [b], with the POSIX separator. *)
Definition path_join (a b : string) : string := a ++ "/" ++ b.

Definition model_path : string := path_join "models" "emotion_classifier.pkl".
Definition vectorizer_path : string := path_join "models" "tfidf_vectorizer.pkl".

(** What reading a file gives: the object, [FileNotFoundError], or any
    other exception. *)
Inductive loaded (A : Type) : Type :=
| Loaded (a : A)
| NotFound
| Broken (e : exn).

Arguments Loaded {A} a.
Arguments NotFound {A}.
Arguments Broken {A} e.

(** What the module reaches outside the process. *)
Record system : Type := {
  Artifact : Type;
  Client : Type;
  joblib_load : string -> loaded Artifact;
  getenv : string -> option string;
  (** [spotipy.Spotify(auth_manager=SpotifyClientCredentials(...))] *)
  spotify : string -> string -> result Client
}.

(** How the module-level code ends: the globals are bound and the routes
    can serve, or [exit()] was called, or an exception escaped. *)
Inductive outcome (A C : Type) : Type :=
| Ready (model vectorizer : A) (sp : C)
| Exit
| Crash (e : exn).

Arguments Ready {A C} model vectorizer sp.
Arguments Exit {A C}.
Arguments Crash {A C} e.

Section Startup.

Variable sys : system.

(** The first [try]: the model is loaded before the vectorizer. *)
Definition load_models : loaded (Artifact sys * Artifact sys) :=
  match joblib_load sys model_path with
  | Loaded model =>
      match joblib_load sys vectorizer_path with
      | Loaded vectorizer => Loaded (model, vectorizer)
      | NotFound => NotFound
      | Broken e => Broken e
      end
  | NotFound => NotFound
  | Broken e => Broken e
  end.

(** [not x] for what [os.getenv] returns. *)
Definition unset (x : option string) : bool :=
  match x with
  | None => true
  | Some s => (s =? "")%string
  end.

(** The body of the second [try]; [None] stands for an exception, the
    [ValueError] raised on missing credentials or one of the client's. *)
Definition spotify_setup : option (Client sys) :=
  let CLIENT_ID := getenv sys "SPOTIPY_CLIENT_ID" in
  let CLIENT_SECRET := getenv sys "SPOTIPY_CLIENT_SECRET" in
  if unset CLIENT_ID || unset CLIENT_SECRET then None
  else match CLIENT_ID, CLIENT_SECRET with
       | Some client_id, Some client_secret =>
           match spotify sys client_id client_secret with
           | inr sp => Some sp
           | inl _ => None
           end
       | _, _ => None
       end.

(** Lines 26 to 56: [except FileNotFoundError] and [except Exception] both
    end in [exit()]; any other exception of the loader escapes. *)
Definition startup : outcome (Artifact sys) (Client sys) :=
  match load_models with
  | NotFound => Exit
  | Broken e => Crash e
  | Loaded (model, vectorizer) =>
      match spotify_setup with
      | None => Exit
      | Some sp => Ready model vectorizer sp
      end
  end.

End Startup.

End Startup.

(* ===================================================================== *)
(** ** [src/training/train_model.py]: [train_model]                       *)
(* ===================================================================== *)

Module TrainModel.

Import Py.

Definition DATA_FILE : string := Startup.path_join "training" "emotions.csv".
Definition MODEL_DIR : string := "models".
Definition VECTORIZER_PATH : string :=
  Startup.path_join MODEL_DIR "tfidf_vectorizer.pkl".
Definition MODEL_PATH : string :=
  Startup.path_join MODEL_DIR "emotion_classifier.pkl".

(** A cell of the data frame: a value, or the missing value [NaN]. *)
Inductive cell : Type :=
| NaN
| Value (v : value).

(** A data frame: its named columns. *)
Definition dataframe : Type := list (string * list cell).

(** [df[name]] *)
Definition column (df : dataframe) (name : string) : result (list cell) :=
  match lookup df name with
  | Some c => inr c
  | None => inl (KeyError name)
  end.

(** [series.fillna('')] *)
Definition fillna (c : cell) : value :=
  match c with
  | NaN => Str ""
  | Value v => v
  end.

(** The libraries [train_model] calls.  The two estimators are built with
    constant arguments just before their first method is called, so each
    constructor goes with that method.  [fillna] and [apply] work on the
    frame in memory and are the functions [fillna] and [map] here. *)
Record toolkit : Type := {
  Vectorizer : Type;
  Features : Type;
  Model : Type;
  Score : Type;
  (** the tokenizer of [preprocess_text] *)
  nltk : Nltk.t;
  (** [stopwords.words(fileids)]: raises [LookupError] when the corpus is
      not installed *)
  stopwords_words : string -> result (list string);
  read_csv : string -> Startup.loaded dataframe;
  (** [train_test_split(X, y, test_size=0.2, random_state=42, stratify=y)] *)
  train_test_split :
    list string -> list cell ->
    result (list string * list string * list cell * list cell);
  (** [TfidfVectorizer(max_features=5000).fit_transform(docs)] *)
  fit_transform : list string -> result (Vectorizer * Features);
  transform : Vectorizer -> list string -> result Features;
  (** [LogisticRegression(max_iter=1000).fit(X, y)] *)
  fit : Features -> list cell -> result Model;
  predict : Model -> Features -> result (list cell);
  accuracy_score : list cell -> list cell -> result Score;
  (** [os.makedirs(path, exist_ok=True)] *)
  makedirs : string -> result unit;
  dump_vectorizer : Vectorizer -> string -> result unit;
  dump_model : Model -> string -> result unit
}.

(** The calls of a run that load, split, fit, score and write, in order.
    The tokenizer, called once per row while the text is cleaned, is not
    logged. *)
Inductive event : Type :=
| StopWords (fileids : string)
| ReadCsv (path : string)
| Split (X : list string) (y : list cell)
| FitTransform (docs : list string)
| Transform (docs : list string)
| Fit (y : list cell)
| Predict
| AccuracyScore (y_true y_pred : list cell)
| Makedirs (path : string)
| Dump (path : string).

(** How a run ends: to the end, by the early [return] on a missing data
    file, or with an exception nobody catches. *)
Inductive ending : Type :=
| Finished
| Returned
| Raised (e : exn).

Definition T (A : Type) : Type := list event -> result A * list event.

Definition ret {A : Type} (a : A) : T A := fun log => (inr a, log).

Definition bind {A B : Type} (m : T A) (k : A -> T B) : T B :=
  fun log =>
    match m log with
    | (inl e, log') => (inl e, log')
    | (inr a, log') => k a log'
    end.

Definition lift {A : Type} (r : result A) : T A := fun log => (r, log).

Definition call {A : Type} (ev : event) (r : result A) : T A :=
  fun log => (r, (log ++ [ev])%list).

Notation "x <- m ;; k" := (bind m (fun x => k))
  (at level 61, m at next level, right associativity).

Section TrainModel.

Variable tk : toolkit.

(** Steps 2 and 3: the cleaned text of every row, and the labels. *)
Definition features_and_target (stop_words : list string) (df : dataframe)
    : result (list string * list cell) :=
  match column df "text" with
  | inl e => inl e
  | inr text =>
      let text := map fillna text in
      let processed_text :=
        map (fun x => Train.preprocess_text (nltk tk) x stop_words) text in
      match column df "label" with
      | inl e => inl e
      | inr label => inr (processed_text, label)
      end
  end.

(** Steps 2 to 8, after the data file was read. *)
Definition train (stop_words : list string) (df : dataframe) : T unit :=
  Xy <- lift (features_and_target stop_words df) ;;
  let '(X, y) := Xy in
  parts <- call (Split X y) (train_test_split tk X y) ;;
  let '(X_train, X_test, y_train, y_test) := parts in
  fitted <- call (FitTransform X_train) (fit_transform tk X_train) ;;
  let '(vectorizer, X_train_tfidf) := fitted in
  X_test_tfidf <- call (Transform X_test) (transform tk vectorizer X_test) ;;
  model <- call (Fit y_train) (fit tk X_train_tfidf y_train) ;;
  y_pred <- call Predict (predict tk model X_test_tfidf) ;;
  accuracy <- call (AccuracyScore y_test y_pred)
                   (accuracy_score tk y_test y_pred) ;;
  _ <- call (Makedirs MODEL_DIR) (makedirs tk MODEL_DIR) ;;
  _ <- call (Dump VECTORIZER_PATH) (dump_vectorizer tk vectorizer VECTORIZER_PATH) ;;
  _ <- call (Dump MODEL_PATH) (dump_model tk model MODEL_PATH) ;;
  ret tt.

(** [train_model()]: the stopword list is loaded first, outside any
    [try]; of what [pd.read_csv] raises only [FileNotFoundError] is
    caught. *)
Definition train_model : ending * list event :=
  match stopwords_words tk "english" with
  | inl e => (Raised e, [StopWords "english"])
  | inr stop_words =>
      match read_csv tk DATA_FILE with
      | Startup.NotFound => (Returned, [StopWords "english"; ReadCsv DATA_FILE])
      | Startup.Broken e => (Raised e, [StopWords "english"; ReadCsv DATA_FILE])
      | Startup.Loaded df =>
          match train stop_words df
                  [StopWords "english"; ReadCsv DATA_FILE] with
          | (inr _, log) => (Finished, log)
          | (inl e, log) => (Raised e, log)
          end
      end
  end.

End TrainModel.

End TrainModel.

(** A small data file and stand-ins for the libraries of the training
    script: the split takes the first two rows for training, the vectorizer
    hands the texts on and the classifier answers the first training
    label. *)
Module TrainFixture.

Import Py.

Definition df : TrainModel.dataframe :=
  [("text", [TrainModel.Value (Str "I feel HAPPY today");
             TrainModel.NaN;
             TrainModel.Value (Int 3)]);
   ("label", [TrainModel.Value (Int 1);
              TrainModel.Value (Int 0);
              TrainModel.Value (Int 2)])].

Definition toolkit (corpus : result (list string))
    (csv : Startup.loaded TrainModel.dataframe) : TrainModel.toolkit :=
  {| TrainModel.Vectorizer := list string;
     TrainModel.Features := list string;
     TrainModel.Model := list TrainModel.cell;
     TrainModel.Score := unit;
     TrainModel.nltk := Nltk.reference;
     TrainModel.stopwords_words := fun _ => corpus;
     TrainModel.read_csv := fun _ => csv;
     TrainModel.train_test_split := fun X y =>
       inr (firstn 2 X, skipn 2 X, firstn 2 y, skipn 2 y);
     TrainModel.fit_transform := fun docs => inr (docs, docs);
     TrainModel.transform := fun _ docs => inr docs;
     TrainModel.fit := fun _ y => inr y;
     TrainModel.predict := fun model X =>
       inr (map (fun _ => hd TrainModel.NaN model) X);
     TrainModel.accuracy_score := fun _ _ => inr tt;
     TrainModel.makedirs := fun _ => inr tt;
     TrainModel.dump_vectorizer := fun _ _ => inr tt;
     TrainModel.dump_model := fun _ _ => inr tt |}.

End TrainFixture.

(* ===================================================================== *)
(** ** Properties                                                         *)
(* ===================================================================== *)

Import Py.

Lemma mem_In (w : string) (l : list string) : mem w l = true <-> In w l.
Proof.
  unfold mem. rewrite existsb_exists. split.
  - intros [x [Hin Heq]]. apply String.eqb_eq in Heq. now subst.
  - intros Hin. exists w. split; [assumption | apply String.eqb_refl].
Qed.

(** *** Mood resolution *)

(** The override fires exactly on the string [uplift] and a negative mood,
    whatever object the caller sent as preference. *)
Lemma search_mood_spec (p : value) (m : string) :
  App.search_mood p m =
    if eq_str p "uplift" && mem m ["sadness"; "anger"; "fear"]
    then "uplift" else m.
Proof. reflexivity. Qed.

Lemma uplift_not_a_label : ~ In "uplift" Spec.mood_labels.
Proof.
  cbn. intros H.
  repeat (destruct H as [H | H]; [discriminate H |]). exact H.
Qed.

(** C1. For every mood label [m] of the six and every preference string
    [p], the resolved search mood is ["uplift"] if and only if [p] is
    ["uplift"] and [m] is one of sadness, anger, fear; in every other case
    it is [m] itself. *)
Theorem search_mood_uplift_iff (m p : string) (Hm : In m Spec.mood_labels) :
  (App.search_mood (Str p) m = "uplift"
   <-> p = "uplift" /\ In m ["sadness"; "anger"; "fear"])
  /\ (~ (p = "uplift" /\ In m ["sadness"; "anger"; "fear"])
      -> App.search_mood (Str p) m = m).
Proof.
  rewrite search_mood_spec. cbn [eq_str].
  destruct (String.eqb_spec p "uplift") as [Hp | Hp];
    destruct (mem m ["sadness"; "anger"; "fear"]) eqn:Hin; cbn [andb].
  - apply mem_In in Hin. split; [tauto | intros Hn; exfalso; tauto].
  - assert (Hnot : ~ In m ["sadness"; "anger"; "fear"]).
    { intros H. apply mem_In in H. congruence. }
    split; [| reflexivity].
    split; [| tauto].
    intros ->. exfalso. now apply uplift_not_a_label.
  - split; [| reflexivity].
    split; [| tauto].
    intros ->. exfalso. now apply uplift_not_a_label.
  - split; [| reflexivity].
    split; [| tauto].
    intros ->. exfalso. now apply uplift_not_a_label.
Qed.

Lemma search_mood_uplift_iff_witness :
  In "fear" Spec.mood_labels
  /\ App.search_mood (Str "uplift") "fear" = "uplift"
  /\ App.search_mood (Str "match") "fear" = "fear".
Proof.
  assert (Hm : In "fear" Spec.mood_labels) by (cbn; tauto).
  destruct (search_mood_uplift_iff "fear" "uplift" Hm) as [[_ Hu] _].
  destruct (search_mood_uplift_iff "fear" "match" Hm) as [_ Hk].
  split; [exact Hm |]. split.
  - apply Hu. split; [reflexivity | cbn; tauto].
  - apply Hk. intros [Hp _]. discriminate Hp.
Defined.

(** *** Label translation *)

Lemma mood_outside (label : Z) :
  label < 0 \/ 5 < label -> App.mood label = "joy".
Proof.
  intros Hout. unfold App.mood, App.MOOD_MAP. cbn [App.lookup_label].
  repeat match goal with
         | |- context [?k =? label] =>
             destruct (Z.eqb_spec k label); [lia |]
         end.
  reflexivity.
Qed.

(** Inside the range the table is the list of labels read by ordinal. *)
Lemma mood_in_range (label : Z) :
  0 <= label <= 5 ->
  App.mood label = nth (Z.to_nat label) Spec.mood_labels "joy".
Proof.
  intros H.
  assert (Hc : label = 0 \/ label = 1 \/ label = 2 \/ label = 3
               \/ label = 4 \/ label = 5) by lia.
  destruct Hc as [-> | [-> | [-> | [-> | [-> | ->]]]]]; reflexivity.
Qed.

Lemma mood_is_label (label : Z) : In (App.mood label) Spec.mood_labels.
Proof.
  destruct (Z_lt_le_dec label 0) as [Hlo | Hlo].
  - rewrite mood_outside by lia. cbn. tauto.
  - destruct (Z_lt_le_dec 5 label) as [Hhi | Hhi].
    + rewrite mood_outside by lia. cbn. tauto.
    + rewrite mood_in_range by lia.
      apply nth_In. cbn. lia.
Qed.

(** C6. The integer label of the classifier is translated by the ordinal
    table 0 sadness, 1 joy, 2 love, 3 anger, 4 fear, 5 surprise, and every
    label outside 0..5 is translated to joy. *)
Theorem mood_of_label :
  App.mood 0 = "sadness" /\ App.mood 1 = "joy" /\ App.mood 2 = "love"
  /\ App.mood 3 = "anger" /\ App.mood 4 = "fear" /\ App.mood 5 = "surprise"
  /\ forall label : Z, label < 0 \/ 5 < label -> App.mood label = "joy".
Proof.
  repeat (split; [reflexivity |]).
  exact mood_outside.
Qed.

Lemma mood_of_label_witness : App.mood 7 = "joy" /\ App.mood (-1) = "joy".
Proof.
  destruct mood_of_label as (_ & _ & _ & _ & _ & _ & Hout).
  split; apply Hout; lia.
Defined.

(** *** Query builder *)

Lemma get_default_nonempty (d : list (string * string)) (k default : string) :
  Forall (fun kv => snd kv <> "") d -> default <> "" ->
  get_default d k default <> "".
Proof.
  intros Hd Hdef. unfold get_default.
  induction Hd as [| [k' v] d' Hv Hd' IH]; cbn [lookup].
  - exact Hdef.
  - destruct (k' =? k)%string; [exact Hv | exact IH].
Qed.

(** The table of the code and the table of the specification list the
    same entries in a different order. *)
Lemma mood_keyword_spec (s : string) :
  App.mood_keyword s = get_default Spec.moods s "happy".
Proof.
  unfold App.mood_keyword, get_default, App.MOOD_KEYWORDS, Spec.moods.
  cbn [lookup].
  repeat match goal with
         | |- context [(?k =? s)%string] =>
             destruct (String.eqb_spec k s); [subst s; reflexivity |]
         end.
  reflexivity.
Qed.

Lemma mood_keyword_nonempty (s : string) : App.mood_keyword s <> "".
Proof.
  apply get_default_nonempty; [| discriminate].
  unfold App.MOOD_KEYWORDS. repeat constructor; discriminate.
Qed.

Lemma lang_keyword_str (l : string) :
  App.lang_keyword (Str l) = inr (get_default Spec.languages l "english").
Proof. reflexivity. Qed.

Lemma lang_keyword_nonempty (l : string) :
  get_default Spec.languages l "english" <> "".
Proof.
  apply get_default_nonempty; [| discriminate].
  unfold Spec.languages. repeat constructor; discriminate.
Qed.

(** C2. For every search mood [s] and every language code [l] the query is
    the mood keyword, one blank, the language keyword; the mood keyword is
    read from sadness sad, joy happy, love love, anger angry, fear dark,
    surprise surprise, uplift uplifting with default happy, the language
    keyword from en english, te telugu, hi hindi with default english; and
    neither keyword is the empty string. *)
Theorem query_spec (s l : string) :
  let mood_keyword := get_default Spec.moods s "happy" in
  let lang_keyword := get_default Spec.languages l "english" in
  App.query s (Str l) = inr (mood_keyword ++ " " ++ lang_keyword)
  /\ mood_keyword <> "" /\ lang_keyword <> "".
Proof.
  cbn zeta. split; [| split].
  - unfold App.query. rewrite lang_keyword_str. cbn [App.and_then].
    now rewrite mood_keyword_spec.
  - rewrite <- mood_keyword_spec. apply mood_keyword_nonempty.
  - apply lang_keyword_nonempty.
Qed.

(** A language that is not a string still yields the default, unless it
    cannot be hashed at all. *)
Lemma lang_keyword_hashable (v : value) :
  (forall l, v <> List l) -> (forall d, v <> Dict d) ->
  exists k, App.lang_keyword v = inr k /\ k <> "".
Proof.
  intros Hl Hd. destruct v; cbn.
  1-4: eexists; split; [reflexivity | discriminate].
  - eexists. split; [reflexivity | apply lang_keyword_nonempty].
  - now elim (Hl l).
  - now elim (Hd kvs).
Qed.

Example query_sad_hindi :
  App.query "uplift" (Str "hi") = inr "uplifting hindi".
Proof. reflexivity. Qed.

Example query_unknown_language :
  App.query "joy" (Str "fr") = inr "happy english".
Proof. reflexivity. Qed.

(** Only a language that is a list or an object makes the lookup raise. *)
Example query_unhashable_language :
  App.query "joy" (List []) = inl (TypeError "unhashable type: 'list'").
Proof. reflexivity. Qed.

(** *** Text normalization *)

Section Normalizer.

Variable nltk : Nltk.t.

Let keep (word : string) : bool :=
  isalnum word && negb (mem word (Nltk.stop_words nltk)).

(** The comprehension filters, then stems. *)
Lemma processed_tokens_filter_map (tokens : list string) :
  App.processed_tokens nltk tokens = map (Nltk.stem nltk) (filter keep tokens).
Proof.
  induction tokens as [| word tokens IH]; cbn [App.processed_tokens filter].
  - reflexivity.
  - unfold keep at 1. destruct (isalnum word && _); cbn [map]; now rewrite IH.
Qed.

(** On a string the serving-time normalizer lowercases, tokenizes, keeps
    the alphanumeric tokens outside the stopword set, stems them and joins
    them with single blanks; it returns a string, the empty one when no
    token survives. *)
Lemma preprocess_text_str (s : string) :
  let kept := filter keep (Nltk.word_tokenize nltk (lower s)) in
  App.preprocess_text nltk (Str s) = inr (join (map (Nltk.stem nltk) kept))
  /\ (kept = [] -> App.preprocess_text nltk (Str s) = inr "").
Proof.
  cbn zeta. unfold App.preprocess_text. rewrite processed_tokens_filter_map.
  split; [reflexivity |]. now intros ->.
Qed.

Lemma preprocess_text_non_str (text : value) :
  (forall s, text <> Str s) ->
  App.preprocess_text nltk text = inl (AttributeError (type_name text) "lower").
Proof.
  intros H. destruct text; try reflexivity. now elim (H s).
Qed.

(** Tokens the filter keeps and the stemmer fixes pass unchanged. *)
Lemma processed_tokens_fixed (l : list string) :
  Forall (fun w => keep w = true /\ Nltk.stem nltk w = w) l ->
  App.processed_tokens nltk l = l.
Proof.
  induction 1 as [| w l [Hk Hs] _ IH]; cbn [App.processed_tokens].
  - reflexivity.
  - unfold keep in Hk. rewrite Hk, Hs, IH. reflexivity.
Qed.

End Normalizer.

Lemma lower_app (a b : string) : lower (a ++ b) = lower a ++ lower b.
Proof.
  induction a as [| c a IH]; cbn; [reflexivity | now rewrite IH].
Qed.

Lemma lower_join (l : list string) :
  Forall (fun w => lower w = w) l -> lower (join l) = join l.
Proof.
  induction 1 as [| w l Hw Hl IH]; [reflexivity |].
  destruct l as [| w' l']; [exact Hw |].
  change (join (w :: w' :: l')) with (w ++ " " ++ join (w' :: l')).
  rewrite !lower_app, Hw, IH. reflexivity.
Qed.

(** C8, as the code has it. The normalizer reproduces its own output
    [normalize(x)] whenever the stemmed tokens of [x] are lowercase
    alphanumeric words outside the stopword set that the stemmer leaves
    unchanged and that the tokenizer recovers from their blank-separated
    concatenation. *)
Theorem preprocess_text_idempotent (nltk : Nltk.t) (x : string) :
  let stems :=
    App.processed_tokens nltk (Nltk.word_tokenize nltk (lower x)) in
  Forall (fun w => lower w = w
                   /\ isalnum w = true
                   /\ mem w (Nltk.stop_words nltk) = false
                   /\ Nltk.stem nltk w = w) stems ->
  Nltk.word_tokenize nltk (join stems) = stems ->
  exists y, App.preprocess_text nltk (Str x) = inr y
            /\ App.preprocess_text nltk (Str y) = inr y.
Proof.
  cbn zeta. intros Hstems Htok.
  eexists. split; [reflexivity |].
  unfold App.preprocess_text.
  rewrite lower_join.
  - rewrite Htok, processed_tokens_fixed; [reflexivity |].
    eapply Forall_impl; [| exact Hstems].
    intros w (_ & Ha & Hm & Hs). split; [| exact Hs].
    now rewrite Ha, Hm.
  - eapply Forall_impl; [| exact Hstems]. now intros w [Hl _].
Qed.

Lemma preprocess_text_idempotent_witness :
  exists y, App.preprocess_text Nltk.reference (Str "Rock music 101") = inr y
            /\ App.preprocess_text Nltk.reference (Str y) = inr y.
Proof.
  assert (Hstems :
            App.processed_tokens Nltk.reference
              (Nltk.word_tokenize Nltk.reference (lower "Rock music 101"))
            = ["rock"; "music"; "101"]) by (vm_compute; reflexivity).
  apply (preprocess_text_idempotent Nltk.reference "Rock music 101");
    cbv zeta; rewrite Hstems.
  - repeat (apply Forall_cons || apply Forall_nil || split);
      vm_compute; reflexivity.
  - vm_compute. reflexivity.
Defined.

(** A lowercase alphanumeric word outside the stopword set whose stem is a
    stopword: the second pass drops what the first produced. *)
Lemma ups_not_idempotent :
  Spec.clean_text Nltk.reference "ups" = true
  /\ App.preprocess_text Nltk.reference (Str "ups") = inr "up"
  /\ App.preprocess_text Nltk.reference (Str "up") = inr ""
  /\ "" <> "up".
Proof.
  split; [| split; [| split]]; try (vm_compute; reflexivity).
  discriminate.
Qed.

(** The stemmer itself is not idempotent either. *)
Example agreed_stems_twice :
  App.preprocess_text Nltk.reference (Str "agreed") = inr "agre"
  /\ App.preprocess_text Nltk.reference (Str "agre") = inr "agr".
Proof. split; vm_compute; reflexivity. Qed.

(** C9. The serving-time and the training-time normalizer differ on some
    string: given that the tokenizer returns the single token [101] on the
    text [101], that [101] is no stopword and that its stem is not empty,
    the serving-time function keeps the token and the training-time
    function, which keeps alphabetic tokens only, returns the empty
    string. *)
Theorem preprocess_text_variants_differ (nltk : Nltk.t)
    (Htok : Nltk.word_tokenize nltk "101" = ["101"])
    (Hstop : mem "101" (Nltk.stop_words nltk) = false)
    (Hstem : Nltk.stem nltk "101" <> "") :
  exists text served,
    App.preprocess_text nltk (Str text) = inr served
    /\ served <> Train.preprocess_text nltk (Str text) (Nltk.stop_words nltk).
Proof.
  assert (Hlower : lower "101" = "101") by reflexivity.
  exists "101", (Nltk.stem nltk "101"). split.
  - unfold App.preprocess_text. rewrite Hlower, Htok.
    cbn [App.processed_tokens]. rewrite Hstop.
    change (isalnum "101") with true. reflexivity.
  - unfold Train.preprocess_text. rewrite Hlower, Htok.
    change (filter isalpha ["101"]) with (@nil string).
    exact Hstem.
Qed.

Lemma preprocess_text_variants_differ_witness :
  exists text served,
    App.preprocess_text Nltk.reference (Str text) = inr served
    /\ served <> Train.preprocess_text Nltk.reference (Str text)
                   (Nltk.stop_words Nltk.reference).
Proof.
  apply (preprocess_text_variants_differ Nltk.reference).
  - reflexivity.
  - reflexivity.
  - vm_compute. discriminate.
Defined.

(** The two also differ on purely alphabetic text, because only the
    serving-time function stems. *)
Example running_served_and_trained :
  App.preprocess_text Nltk.reference (Str "Running late") = inr "run late"
  /\ Train.preprocess_text Nltk.reference (Str "Running late")
       Nltk.english_stopwords = "running late".
Proof. split; vm_compute; reflexivity. Qed.

(** *** Result shaping *)

(** The loop appends one record per track, in order, or raises. *)
Lemma songs_loop_Forall2 (tracks shaped acc : list value) :
  Forall2 (fun track s => App.song track = inr s) tracks shaped ->
  App.songs_loop tracks acc = inr (acc ++ shaped)%list.
Proof.
  intros H. revert acc.
  induction H as [| track s tracks shaped Hs _ IH]; intros acc;
    cbn [App.songs_loop].
  - now rewrite app_nil_r.
  - rewrite Hs. cbn [App.and_then]. rewrite IH, <- app_assoc. reflexivity.
Qed.

(** A track that raises fails the whole loop. *)
Lemma songs_loop_raises (before after acc : list value) (track : value)
    (shaped : list value) (e : exn) :
  Forall2 (fun track s => App.song track = inr s) before shaped ->
  App.song track = inl e ->
  App.songs_loop (before ++ track :: after) acc = inl e.
Proof.
  intros H He. revert acc.
  induction H as [| t s before shaped Hs _ IH]; intros acc;
    cbn [App.songs_loop app].
  - now rewrite He.
  - rewrite Hs. cbn [App.and_then]. apply IH.
Qed.

(** The record built for a descriptor of the provider. *)
Lemma song_to_value (t : Provider.track) :
  App.song (Provider.to_value t) = inr (Provider.record t).
Proof.
  unfold App.song, Provider.to_value, Provider.record.
  cbn -[App.placeholder].
  destruct (Provider.images t) as [| u rest]; reflexivity.
Qed.

Lemma songs_results (l : list Provider.track) :
  App.songs (Provider.results l) = inr (map Provider.record l).
Proof.
  unfold App.songs, Provider.results. cbn.
  apply (songs_loop_Forall2 _ _ []).
  induction l as [| t l IH]; constructor; [apply song_to_value | exact IH].
Qed.

(** A descriptor without any artist breaks the provider's contract: its
    [track["artists"][0]] raises and ends the request. *)
Example track_without_artist_fails :
  App.songs
    (Dict [("tracks",
            Dict [("items",
                   List [ Provider.to_value Fixture.with_art;
                          Dict [("id", Str "x"); ("name", Str "y");
                                ("artists", List [])] ])])])
  = inl (IndexError "list index out of range").
Proof. reflexivity. Qed.

(** C7. For every ordered list of provider tracks the shaper returns one
    record per track in the same order; a track without artwork gets the
    placeholder as image and a track whose preview is null keeps the null,
    and neither is dropped or fails the batch. *)
Theorem songs_one_per_track_in_order (l : list Provider.track) :
  let shaped :=
    map (fun t =>
           Dict [ ("id", Str (Provider.id t));
                  ("song_name", Str (Provider.name t));
                  ("artist", Str (Provider.artist t));
                  ("image_url",
                   Str match Provider.images t with
                       | [] => App.placeholder
                       | url :: _ => url
                       end);
                  ("preview_url",
                   match Provider.preview_url t with
                   | Some url => Str url
                   | None => None_
                   end);
                  ("spotify_url", Str (Provider.spotify t)) ]) l in
  App.songs (Provider.results l) = inr shaped
  /\ length shaped = length l.
Proof.
  cbn zeta. split; [| apply length_map].
  rewrite songs_results. reflexivity.
Qed.

(** C5. For every provider result list and every track in it the record
    of the track is in the result with all its fields, and its image is
    never missing: it is the placeholder when the album has no image and
    the first album image otherwise, hence not the empty string as long as
    the provider sends no empty URL. *)
Theorem image_url_never_missing (l : list Provider.track) (t : Provider.track)
    (Hin : In t l) :
  exists shaped image_url,
    App.songs (Provider.results l) = inr shaped
    /\ In (Dict [ ("id", Str (Provider.id t));
                 ("song_name", Str (Provider.name t));
                 ("artist", Str (Provider.artist t));
                 ("image_url", Str image_url);
                 ("preview_url", Provider.preview_value (Provider.preview_url t));
                 ("spotify_url", Str (Provider.spotify t)) ]) shaped
    /\ (Provider.images t = [] -> image_url = App.placeholder)
    /\ (forall url rest, Provider.images t = url :: rest -> image_url = url)
    /\ ((forall url, In url (Provider.images t) -> url <> "") -> image_url <> "").
Proof.
  exists (map Provider.record l), (hd App.placeholder (Provider.images t)).
  split; [apply songs_results |].
  split; [apply (in_map Provider.record _ _ Hin) |].
  split; [now intros -> |].
  split; [now intros url rest -> |].
  intros Hurls. destruct (Provider.images t) as [| url rest]; cbn [hd].
  - discriminate.
  - apply Hurls. now left.
Qed.

Lemma image_url_never_missing_witness :
  exists shaped image_url,
    App.songs (Provider.results Fixture.tracks) = inr shaped
    /\ In (Dict [ ("id", Str "4uLU6hMCjMI75M1A2tKUQC");
                 ("song_name", Str "Kal Ho Naa Ho");
                 ("artist", Str "Sonu Nigam");
                 ("image_url", Str image_url);
                 ("preview_url", None_);
                 ("spotify_url",
                  Str "https://open.spotify.com/track/4uLU6hMCjMI75M1A2tKUQC") ])
          shaped
    /\ image_url = App.placeholder.
Proof.
  destruct (image_url_never_missing Fixture.tracks Fixture.no_art)
    as (shaped & image_url & Hs & Hrec & Hnone & _).
  - cbn. now left.
  - exists shaped, image_url. split; [exact Hs |]. split; [exact Hrec |].
    apply Hnone. reflexivity.
Defined.

(** The test of line 159 is on the list of images, not on the URL: an
    image whose URL the provider sends empty is passed on, and the record
    has an empty [image_url]. *)
Lemma empty_image_url_is_kept :
  In Fixture.empty_art [Fixture.with_art; Fixture.empty_art]
  /\ App.songs (Provider.results [Fixture.with_art; Fixture.empty_art])
     = inr [ Provider.record Fixture.with_art;
             Dict [ ("id", Str "3n3Ppam7vgaVa1iaRUc9Lp");
                    ("song_name", Str "Mr. Brightside");
                    ("artist", Str "The Killers");
                    ("image_url", Str "");
                    ("preview_url", None_);
                    ("spotify_url",
                     Str "https://open.spotify.com/track/3n3Ppam7vgaVa1iaRUc9Lp") ] ].
Proof. split; [cbn; auto | reflexivity]. Qed.

(** *** The handler *)

Section HandlerFacts.

Variable sv : App.services.

(** The guard [if not data or "message" not in data]. *)
Lemma api_predict_guard (data : value) :
  truthy data = false \/ contains data "message" = inr false ->
  App.api_predict sv data = (App.bad_request, []).
Proof.
  intros [Hfalsy | Habsent]; unfold App.api_predict, App.api_predict_try.
  - rewrite Hfalsy. reflexivity.
  - destruct (truthy data); [| reflexivity].
    cbn [negb]. unfold App.bind at 1, App.lift at 1.
    rewrite Habsent. reflexivity.
Qed.

(** The guard is the only place that answers 400. *)
Lemma api_predict_400 (data : value) :
  snd (fst (App.api_predict sv data)) = 400 ->
  truthy data = false \/ contains data "message" = inr false.
Proof.
  unfold App.api_predict, App.api_predict_try.
  destruct (truthy data) eqn:Htruthy; cbn [negb]; [| now left].
  unfold App.bind, App.lift, App.call, App.ret.
  destruct (contains data "message") as [e | has] eqn:Hhas;
    [intros H; discriminate H |].
  destruct has; cbn [negb]; [| now right].
  destruct data as [| b | z | q | s | l | kvs];
    try (cbn; intros H; discriminate H).
  cbn [get].
  destruct (App.preprocess_text (App.nltk sv) _) as [e | processed_text];
    [intros H; discriminate H |].
  destruct (App.vectorizer_transform sv processed_text) as [e | vector];
    [intros H; discriminate H |].
  destruct (App.model_predict sv vector) as [e | prediction];
    [intros H; discriminate H |].
  destruct (App.query _ _) as [e | query]; [intros H; discriminate H |].
  destruct (App.sp_search sv query "track" 12 "IN") as [e | results];
    [intros H; discriminate H |].
  destruct (App.songs results) as [e | shaped]; intros H; discriminate H.
Qed.

(** When the membership test of the guard itself raises, the answer is a
    500 and nothing was called. *)
Lemma api_predict_guard_raises (data : value) (e : exn) :
  truthy data = true ->
  contains data "message" = inl e ->
  App.api_predict sv data = ((Dict [("error", Str (str_of_exn e))], 500), []).
Proof.
  intros Htruthy Hraise. unfold App.api_predict, App.api_predict_try.
  rewrite Htruthy. cbn [negb]. unfold App.bind at 1, App.lift at 1.
  rewrite Hraise. reflexivity.
Qed.

(** Past the guard, on an object: the text goes to the normalizer, and
    what the normalizer raises becomes a 500 with nothing else called. *)
Lemma api_predict_normalizer_raises (kvs : list (string * value))
    (text : value) (e : exn) :
  lookup kvs "message" = Some text ->
  App.preprocess_text (App.nltk sv) text = inl e ->
  App.api_predict sv (Dict kvs)
  = ((Dict [("error", Str (str_of_exn e))], 500), [App.Normalize text]).
Proof.
  intros Hmsg Hraise.
  unfold App.api_predict, App.api_predict_try.
  assert (Htruthy : truthy (Dict kvs) = true).
  { destruct kvs; [discriminate Hmsg | reflexivity]. }
  rewrite Htruthy. cbn [negb].
  unfold App.bind, App.lift, App.call, contains, get, get_default.
  rewrite Hmsg. cbn [negb app]. rewrite Hraise. reflexivity.
Qed.

(** A request answered with 200 went through every step: its body is an
    object with a [message], the classifier returned a label, and the
    [mood] of the answer is the search mood resolved from that label and
    the preference of the request. *)
Lemma api_predict_ok (data body : value) (log : list App.event) :
  App.api_predict sv data = ((body, 200), log) ->
  exists kvs text processed_text vector prediction query results shaped,
    data = Dict kvs
    /\ lookup kvs "message" = Some text
    /\ App.preprocess_text (App.nltk sv) text = inr processed_text
    /\ App.vectorizer_transform sv processed_text = inr vector
    /\ App.model_predict sv vector = inr prediction
    /\ App.query (App.search_mood (get_default kvs "preference" (Str "match"))
                                  (App.mood prediction))
                 (get_default kvs "language" (Str "en")) = inr query
    /\ App.sp_search sv query "track" 12 "IN" = inr results
    /\ App.songs results = inr shaped
    /\ body = Dict [ ("mood",
                      Str (App.search_mood
                             (get_default kvs "preference" (Str "match"))
                             (App.mood prediction)));
                     ("songs", List shaped) ]
    /\ log = [ App.Normalize text; App.Vectorize processed_text;
               App.Classify; App.Search query "track" 12 "IN" ].
Proof.
  unfold App.api_predict, App.api_predict_try.
  destruct (truthy data) eqn:Htruthy; cbn [negb];
    [| intros H; discriminate H].
  unfold App.bind, App.lift, App.call, App.ret.
  destruct (contains data "message") as [e | has] eqn:Hhas;
    [intros H; discriminate H |].
  destruct has; cbn [negb]; [| intros H; discriminate H].
  destruct data as [| b | z | q | s | l | kvs];
    try (cbn; intros H; discriminate H).
  cbn [get]. cbn [contains] in Hhas.
  destruct (lookup kvs "message") as [text |] eqn:Hmsg;
    [| discriminate Hhas].
  assert (Htext : get_default kvs "message" None_ = text).
  { unfold get_default. now rewrite Hmsg. }
  rewrite Htext. cbn [app].
  destruct (App.preprocess_text (App.nltk sv) text)
    as [e | processed_text] eqn:Hpre; [intros H; discriminate H |].
  destruct (App.vectorizer_transform sv processed_text)
    as [e | vector] eqn:Hvec; [intros H; discriminate H |].
  destruct (App.model_predict sv vector)
    as [e | prediction] eqn:Hcls; [intros H; discriminate H |].
  destruct (App.query _ _) as [e | query] eqn:Hq;
    [intros H; discriminate H |].
  destruct (App.sp_search sv query "track" 12 "IN")
    as [e | results] eqn:Hsearch; [intros H; discriminate H |].
  destruct (App.songs results) as [e | shaped] eqn:Hsongs;
    [intros H; discriminate H |].
  intros H. injection H as Hbody Hlog.
  exists kvs, text, processed_text, vector, prediction, query, results, shaped.
  repeat (split; [assumption || reflexivity |]).
  split; [now symmetry |]. now symmetry.
Qed.

End HandlerFacts.



(** An object without the key is the case the specification names. *)
Lemma missing_key_rejected (sv : App.services) (kvs : list (string * value)) :
  lookup kvs "message" = None ->
  App.api_predict sv (Dict kvs) = (App.bad_request, []).
Proof.
  intros Hnone. apply api_predict_guard. right.
  cbn [contains]. now rewrite Hnone.
Qed.


(** A message that is not a string reaches the normalizer, which raises;
    the answer is 500, not 400. *)
Example number_message_is_500 (sv : App.services) :
  Spec.has_message (Dict [("message", Int 5)]) = false
  /\ App.api_predict sv (Dict [("message", Int 5)])
     = ((Dict [("error", Str "'int' object has no attribute 'lower'")], 500),
        [App.Normalize (Int 5)]).
Proof.
  split; [reflexivity |].
  apply (api_predict_normalizer_raises sv _ (Int 5)
           (AttributeError "int" "lower")); reflexivity.
Qed.

(** A body that is a number or [true] has no [message] either, and the
    membership test itself raises. *)
Example number_body_is_500 (sv : App.services) :
  App.api_predict sv (Int 5)
  = ((Dict [("error", Str "argument of type 'int' is not iterable")], 500),
     []).
Proof. reflexivity. Qed.

(** C4 at the input on which it fails. The serving-time normalizer raises
    on a message that is not a string, where the training-time function
    returns the empty string; the handler turns the exception into a 500. *)
Theorem preprocess_text_raises_on_non_string (sv : App.services)
    (stop_words : list string) :
  App.preprocess_text (App.nltk sv) (Int 5)
  = inl (AttributeError "int" "lower")
  /\ Train.preprocess_text (App.nltk sv) (Int 5) stop_words = ""
  /\ App.api_predict sv (Dict [("message", Int 5)])
     = ((Dict [("error", Str "'int' object has no attribute 'lower'")], 500),
        [App.Normalize (Int 5)]).
Proof.
  split; [reflexivity |]. split; [reflexivity |].
  apply (api_predict_normalizer_raises sv _ (Int 5)
           (AttributeError "int" "lower")); reflexivity.
Qed.

(** C10. The [mood] of a successful answer is the search mood resolved
    from the classified label and the preference of the request, not the
    label's own mood: when the preference is uplift and the classified
    mood is sadness, anger or fear, the answer says ["uplift"]. *)
Theorem response_mood_is_search_mood (sv : App.services) (data body : value)
    (log : list App.event)
    (Hok : App.api_predict sv data = ((body, 200), log)) :
  exists kvs vector prediction shaped,
    data = Dict kvs
    /\ App.model_predict sv vector = inr prediction
    /\ body = Dict [ ("mood",
                      Str (App.search_mood
                             (get_default kvs "preference" (Str "match"))
                             (App.mood prediction)));
                     ("songs", List shaped) ]
    /\ (get_default kvs "preference" (Str "match") = Str "uplift" ->
        In (App.mood prediction) ["sadness"; "anger"; "fear"] ->
        body = Dict [("mood", Str "uplift"); ("songs", List shaped)]
        /\ App.mood prediction <> "uplift").
Proof.
  destruct (api_predict_ok sv data body log Hok)
    as (kvs & text & processed_text & vector & prediction & query & results
        & shaped & Hdata & _ & _ & _ & Hcls & _ & _ & _ & Hbody & _).
  exists kvs, vector, prediction, shaped.
  split; [exact Hdata |]. split; [exact Hcls |]. split; [exact Hbody |].
  intros Hpref Hneg. split.
  - rewrite Hbody, Hpref, search_mood_spec. cbn [eq_str].
    apply mem_In in Hneg. rewrite Hneg. reflexivity.
  - intros Heq. apply uplift_not_a_label. rewrite <- Heq.
    apply mood_is_label.
Qed.

Lemma response_mood_is_search_mood_witness :
  exists kvs vector prediction shaped,
    Dict [ ("message", Str "everything is terrible"); ("language", Str "hi");
           ("preference", Str "uplift") ] = Dict kvs
    /\ App.model_predict (Fixture.services 0) vector = inr prediction
    /\ App.mood prediction = "sadness"
    /\ fst (fst (App.api_predict (Fixture.services 0)
                   (Dict [ ("message", Str "everything is terrible");
                           ("language", Str "hi");
                           ("preference", Str "uplift") ])))
       = Dict [("mood", Str "uplift"); ("songs", List shaped)].
Proof.
  pose (data := Dict [ ("message", Str "everything is terrible");
                       ("language", Str "hi"); ("preference", Str "uplift") ]).
  pose (answer := App.api_predict (Fixture.services 0) data).
  assert (Hok : App.api_predict (Fixture.services 0) data
                = ((fst (fst answer), 200), snd answer))
    by (vm_compute; reflexivity).
  destruct (response_mood_is_search_mood (Fixture.services 0) data
              (fst (fst answer)) (snd answer) Hok)
    as (kvs & vector & prediction & shaped & Hdata & Hcls & Hbody & Hup).
  exists kvs, vector, prediction, shaped.
  assert (Hlabel : prediction = 0).
  { cbn in Hcls. now injection Hcls as <-. }
  subst prediction.
  split; [exact Hdata |]. split; [exact Hcls |]. split; [reflexivity |].
  injection Hdata as <-.
  apply Hup; [reflexivity | cbn; tauto].
Defined.

(* ===================================================================== *)
(** ** Further properties of the handler                                  *)
(* ===================================================================== *)

Section HandlerRuns.

Variable sv : App.services.

(** How far a request gets: the guard answers, or a step raises after the
    calls made so far, or the provider was searched. *)
Lemma api_predict_try_cases (data : value) :
  let r := App.api_predict_try sv data [] in
  (fst r = inr App.bad_request /\ snd r = [])
  \/ (exists e, fst r = inl e /\ snd r = [])
  \/ (exists text e, fst r = inl e /\ snd r = [App.Normalize text])
  \/ (exists text p e,
        fst r = inl e /\ snd r = [App.Normalize text; App.Vectorize p])
  \/ (exists text p e,
        fst r = inl e
        /\ snd r = [App.Normalize text; App.Vectorize p; App.Classify])
  \/ (exists kvs text p prediction q,
        data = Dict kvs
        /\ App.query (App.search_mood
                        (get_default kvs "preference" (Str "match"))
                        (App.mood prediction))
                     (get_default kvs "language" (Str "en")) = inr q
        /\ snd r = [ App.Normalize text; App.Vectorize p; App.Classify;
                     App.Search q "track" 12 "IN" ]
        /\ ((exists e, fst r = inl e)
            \/ exists shaped,
                 fst r
                 = inr (Dict [ ("mood",
                                Str (App.search_mood
                                       (get_default kvs "preference" (Str "match"))
                                       (App.mood prediction)));
                               ("songs", List shaped) ], 200))).
Proof.
  cbv zeta. unfold App.api_predict_try.
  destruct (truthy data) eqn:Htruthy; cbn [negb]; [| left; split; reflexivity].
  unfold App.bind, App.lift, App.call, App.ret.
  destruct (contains data "message") as [e | has] eqn:Hhas;
    [right; left; exists e; split; reflexivity |].
  destruct has; cbn [negb]; [| left; split; reflexivity].
  destruct (get data "message" None_) as [e | text] eqn:Htext;
    [right; left; exists e; split; reflexivity |].
  destruct data as [| b | z | q | s | l | kvs]; try discriminate Htext.
  cbn [get]. cbn [app].
  destruct (App.preprocess_text (App.nltk sv) text) as [e | p];
    [right; right; left; exists text, e; split; reflexivity |].
  destruct (App.vectorizer_transform sv p) as [e | vector];
    [right; right; right; left; exists text, p, e; split; reflexivity |].
  destruct (App.model_predict sv vector) as [e | prediction];
    [right; right; right; right; left; exists text, p, e; split; reflexivity |].
  destruct (App.query _ _) as [e | q] eqn:Hq;
    [right; right; right; right; left; exists text, p, e; split; reflexivity |].
  right; right; right; right; right.
  exists kvs, text, p, prediction, q.
  split; [reflexivity |]. split; [exact Hq |].
  destruct (App.sp_search sv q "track" 12 "IN") as [e | results];
    [split; [reflexivity | left; exists e; reflexivity] |].
  destruct (App.songs results) as [e | shaped];
    [split; [reflexivity | left; exists e; reflexivity] |].
  split; [reflexivity | right; exists shaped; reflexivity].
Qed.

End HandlerRuns.

Lemma api_predict_log (sv : App.services) (data : value) :
  snd (App.api_predict sv data) = snd (App.api_predict_try sv data []).
Proof.
  unfold App.api_predict.
  now destruct (App.api_predict_try sv data []) as [[e | resp] log].
Qed.

Lemma search_mood_in (p : value) (prediction : Z) :
  In (App.search_mood p (App.mood prediction))
     (Spec.mood_labels ++ ["uplift"]).
Proof.
  rewrite search_mood_spec.
  destruct (eq_str p "uplift" && _).
  - apply in_or_app. right. now left.
  - apply in_or_app. left. apply mood_is_label.
Qed.

(** Every search mood the handler computes is a key of [MOOD_KEYWORDS],
    and every language keyword is a value of [LANGUAGE_KEYWORDS]. *)
Lemma query_fixed (p language : value) (prediction : Z) (q : string) :
  App.query (App.search_mood p (App.mood prediction)) language = inr q ->
  exists s m l,
    lookup App.MOOD_KEYWORDS s = Some m
    /\ In l (map snd App.LANGUAGE_KEYWORDS)
    /\ q = m ++ " " ++ l.
Proof.
  intros Hq.
  assert (Hkey : exists m,
             lookup App.MOOD_KEYWORDS
               (App.search_mood p (App.mood prediction)) = Some m
             /\ App.mood_keyword (App.search_mood p (App.mood prediction)) = m).
  { pose proof (search_mood_in p prediction) as Hin.
    unfold App.mood_keyword, get_default.
    cbn in Hin.
    repeat (destruct Hin as [<- | Hin];
            [eexists; split; reflexivity |]).
    contradiction. }
  destruct Hkey as (m & Hlook & Hkw).
  assert (Hlang : forall l, App.lang_keyword language = inr l ->
                            In l (map snd App.LANGUAGE_KEYWORDS)).
  { intros l Hl. unfold App.lang_keyword, table_get in Hl.
    assert (Hdef : In "english" (map snd App.LANGUAGE_KEYWORDS))
      by (cbn; tauto).
    destruct language as [| b | z | x | s | ls | kvs];
      try (injection Hl as <-; exact Hdef); try discriminate Hl.
    injection Hl as <-. unfold get_default, App.LANGUAGE_KEYWORDS.
    cbn [lookup].
    repeat match goal with
           | |- context [(?k =? s)%string] =>
               destruct (k =? s)%string; [cbn; tauto |]
           end.
    exact Hdef. }
  unfold App.query in Hq. rewrite Hkw in Hq.
  destruct (App.lang_keyword language) as [e | l]; [discriminate Hq |].
  cbn [App.and_then] in Hq. injection Hq as <-.
  exists (App.search_mood p (App.mood prediction)), m, l.
  split; [exact Hlook |]. split; [now apply Hlang | reflexivity].
Qed.

(** Every request is answered: with 200 and a body [{mood, songs}], or
    with 400 or 500 and a body [{error}] whose value is a string. *)
Theorem api_predict_answers (sv : App.services) (data : value) :
  let answer := fst (App.api_predict sv data) in
  (snd answer = 200
   /\ exists m shaped,
        fst answer = Dict [("mood", Str m); ("songs", List shaped)])
  \/ ((snd answer = 400 \/ snd answer = 500)
      /\ exists msg, fst answer = Dict [("error", Str msg)]).
Proof.
  cbv zeta.
  pose proof (api_predict_try_cases sv data) as Hcases. cbv zeta in Hcases.
  unfold App.api_predict.
  destruct (App.api_predict_try sv data []) as [[e | resp] log];
    cbn [fst snd] in *.
  - right. split; [now right | eexists; reflexivity].
  - destruct Hcases as [[Hbad _] | [(e & He & _) | [(t & e & He & _)
      | [(t & p & e & He & _) | [(t & p & e & He & _)
      | (kvs & t & p & z & q & _ & _ & _ & [(e & He) | (shaped & Hs)])]]]]];
      try discriminate He.
    + injection Hbad as ->. right.
      split; [now left | eexists; reflexivity].
    + injection Hs as ->. left.
      split; [reflexivity | eexists; eexists; reflexivity].
Qed.

(** The calls of a request are an initial part of: normalize, vectorize,
    classify, search.  So no step runs before the one it depends on, and
    the provider is searched at most once per request. *)
Theorem api_predict_log_prefix (sv : App.services) (data : value) :
  exists text p q rest,
    (snd (App.api_predict sv data) ++ rest)%list
    = [ App.Normalize text; App.Vectorize p; App.Classify;
        App.Search q "track" 12 "IN" ].
Proof.
  rewrite api_predict_log.
  pose proof (api_predict_try_cases sv data) as Hcases. cbv zeta in Hcases.
  destruct Hcases as [[_ Hlog] | [(e & _ & Hlog) | [(t & e & _ & Hlog)
    | [(t & p & e & _ & Hlog) | [(t & p & e & _ & Hlog)
    | (kvs & t & p & z & q & _ & _ & Hlog & _)]]]]]; rewrite Hlog.
  - exists None_, "", "". eexists. reflexivity.
  - exists None_, "", "". eexists. reflexivity.
  - exists t, "", "". eexists. reflexivity.
  - exists t, p, "". eexists. reflexivity.
  - exists t, p, "". eexists. reflexivity.
  - exists t, p, q, []. reflexivity.
Qed.

(** Whatever the request says, a search the handler sends to the provider
    asks for at most 12 tracks of market IN with a query made of a value
    of [MOOD_KEYWORDS] found under a key (never the default), one blank
    and a value of [LANGUAGE_KEYWORDS]: no text of the caller reaches the
    provider. *)
Theorem search_query_is_fixed (sv : App.services) (data : value)
    (q type market : string) (limit : Z)
    (Hsent : In (App.Search q type limit market)
                (snd (App.api_predict sv data))) :
  type = "track" /\ limit = 12 /\ market = "IN"
  /\ exists s m l,
       lookup App.MOOD_KEYWORDS s = Some m
       /\ In l (map snd App.LANGUAGE_KEYWORDS)
       /\ q = m ++ " " ++ l.
Proof.
  rewrite api_predict_log in Hsent.
  pose proof (api_predict_try_cases sv data) as Hcases. cbv zeta in Hcases.
  destruct Hcases as [[_ Hlog] | [(e & _ & Hlog) | [(t & e & _ & Hlog)
    | [(t & p & e & _ & Hlog) | [(t & p & e & _ & Hlog)
    | (kvs & t & p & z & q' & _ & Hq & Hlog & _)]]]]];
    rewrite Hlog in Hsent; cbn [In] in Hsent;
    repeat (destruct Hsent as [Hsent | Hsent]; [try discriminate Hsent |]);
    try contradiction.
  injection Hsent as <- <- <- <-.
  repeat (split; [reflexivity |]).
  exact (query_fixed _ _ _ _ Hq).
Qed.

Lemma search_query_is_fixed_witness :
  exists s m l,
    lookup App.MOOD_KEYWORDS s = Some m
    /\ In l (map snd App.LANGUAGE_KEYWORDS)
    /\ "uplifting hindi" = m ++ " " ++ l.
Proof.
  apply (search_query_is_fixed (Fixture.services 0)
           (Dict [ ("message", Str "everything is terrible");
                   ("language", Str "hi"); ("preference", Str "uplift") ])
           "uplifting hindi" "track" "IN" 12).
  vm_compute. right. right. right. left. reflexivity.
Defined.

Section HandlerSteps.

Variable sv : App.services.

(** The handler on an object with a message, step by step. *)
Lemma api_predict_try_message (kvs : list (string * value)) (text : value) :
  lookup kvs "message" = Some text ->
  App.api_predict_try sv (Dict kvs) []
  = match App.preprocess_text (App.nltk sv) text with
    | inl e => (inl e, [App.Normalize text])
    | inr p =>
        match App.vectorizer_transform sv p with
        | inl e => (inl e, [App.Normalize text; App.Vectorize p])
        | inr vector =>
            match App.model_predict sv vector with
            | inl e =>
                (inl e, [App.Normalize text; App.Vectorize p; App.Classify])
            | inr prediction =>
                let search_mood :=
                  App.search_mood (get_default kvs "preference" (Str "match"))
                                  (App.mood prediction) in
                match App.query search_mood
                        (get_default kvs "language" (Str "en")) with
                | inl e =>
                    (inl e,
                     [App.Normalize text; App.Vectorize p; App.Classify])
                | inr q =>
                    (match App.and_then (App.sp_search sv q "track" 12 "IN")
                             App.songs with
                     | inl e => inl e
                     | inr shaped =>
                         inr (Dict [ ("mood", Str search_mood);
                                     ("songs", List shaped) ], 200)
                     end,
                     [ App.Normalize text; App.Vectorize p; App.Classify;
                       App.Search q "track" 12 "IN" ])
                end
            end
        end
    end.
Proof.
  intros Hmsg. unfold App.api_predict_try.
  assert (Htruthy : truthy (Dict kvs) = true).
  { destruct kvs; [discriminate Hmsg | reflexivity]. }
  rewrite Htruthy. cbn [negb].
  unfold App.bind, App.lift, App.call, App.ret, contains, get.
  rewrite Hmsg. cbn [negb].
  replace (get_default kvs "message" None_) with text
    by (unfold get_default; now rewrite Hmsg).
  cbn [app].
  destruct (App.preprocess_text (App.nltk sv) text) as [e | p];
    [reflexivity |].
  destruct (App.vectorizer_transform sv p) as [e | vector]; [reflexivity |].
  destruct (App.model_predict sv vector) as [e | prediction];
    [reflexivity |].
  cbv zeta.
  destruct (App.query _ _) as [e | q]; [reflexivity |].
  destruct (App.sp_search sv q "track" 12 "IN") as [e | results];
    [reflexivity |].
  cbn [App.and_then].
  destruct (App.songs results) as [e | shaped]; reflexivity.
Qed.

End HandlerSteps.

(** When the provider raises, or answers with something the shaper cannot
    read, the request is answered with 500 and the text of the exception:
    no song of a partly read answer is returned. *)
Theorem provider_failure_is_500 (sv : App.services)
    (kvs : list (string * value)) (text : value) (p q : string)
    (vector : App.V sv) (prediction : Z) (e : exn)
    (Hmsg : lookup kvs "message" = Some text)
    (Hpre : App.preprocess_text (App.nltk sv) text = inr p)
    (Hvec : App.vectorizer_transform sv p = inr vector)
    (Hcls : App.model_predict sv vector = inr prediction)
    (Hq : App.query (App.search_mood
                       (get_default kvs "preference" (Str "match"))
                       (App.mood prediction))
                    (get_default kvs "language" (Str "en")) = inr q)
    (Hfail : App.and_then (App.sp_search sv q "track" 12 "IN") App.songs
             = inl e) :
  App.api_predict sv (Dict kvs)
  = ((Dict [("error", Str (str_of_exn e))], 500),
     [ App.Normalize text; App.Vectorize p; App.Classify;
       App.Search q "track" 12 "IN" ]).
Proof.
  unfold App.api_predict.
  rewrite (api_predict_try_message sv kvs text Hmsg), Hpre, Hvec, Hcls.
  cbv zeta. rewrite Hq, Hfail. reflexivity.
Qed.

Lemma provider_failure_is_500_witness :
  let sv := {| App.V := string;
               App.nltk := Nltk.reference;
               App.vectorizer_transform := fun p => inr p;
               App.model_predict := fun _ => inr 1;
               App.sp_search := fun _ _ _ _ =>
                                  inr (Dict [("error", Str "rate limited")]) |} in
  App.api_predict sv (Dict [("message", Str "I feel so happy today")])
  = ((Dict [("error", Str "'tracks'")], 500),
     [ App.Normalize (Str "I feel so happy today");
       App.Vectorize "feel happi today"; App.Classify;
       App.Search "happy english" "track" 12 "IN" ]).
Proof.
  intros sv.
  apply (provider_failure_is_500 sv
           [("message", Str "I feel so happy today")]
           (Str "I feel so happy today")
           "feel happi today" "happy english"
           ("feel happi today" : App.V sv) 1
           (KeyError "tracks")); vm_compute; reflexivity.
Defined.

(** A track whose [artists] is an object, not a list: [track["artists"][0]]
    raises [KeyError(0)], and the text of the 500 is the bare key. *)
Example artists_object_is_500 :
  let sv := {| App.V := string;
               App.nltk := Nltk.reference;
               App.vectorizer_transform := fun p => inr p;
               App.model_predict := fun _ => inr 1;
               App.sp_search := fun _ _ _ _ =>
                 inr (Dict [("tracks",
                             Dict [("items",
                                    List [Dict [ ("id", Str "x");
                                                 ("name", Str "y");
                                                 ("artists",
                                                  Dict [("name", Str "a")]) ]])])]) |} in
  fst (App.api_predict sv (Dict [("message", Str "so happy")]))
  = (Dict [("error", Str "0")], 500).
Proof. vm_compute. reflexivity. Qed.

Lemma api_predict_try_not_dict (sv : App.services) (data : value) :
  (forall kvs, data <> Dict kvs) ->
  snd (App.api_predict_try sv data []) = [].
Proof.
  intros Hnot. unfold App.api_predict_try.
  destruct (truthy data); cbn [negb]; [| reflexivity].
  unfold App.bind, App.lift.
  destruct (contains data "message") as [e | [|]]; try reflexivity.
  cbn [negb].
  destruct data as [| b | z | x | s | l | kvs]; try reflexivity.
  now elim (Hnot kvs).
Qed.

(** The provider is searched only for an object with a message that the
    normalizer, the vectorizer and the classifier all accepted, and the
    query is the one built from the classified label. *)
Theorem search_only_after_classification (sv : App.services) (data : value)
    (q type market : string) (limit : Z)
    (Hsent : In (App.Search q type limit market)
                (snd (App.api_predict sv data))) :
  exists kvs text p vector prediction,
    data = Dict kvs
    /\ lookup kvs "message" = Some text
    /\ App.preprocess_text (App.nltk sv) text = inr p
    /\ App.vectorizer_transform sv p = inr vector
    /\ App.model_predict sv vector = inr prediction
    /\ App.query (App.search_mood
                    (get_default kvs "preference" (Str "match"))
                    (App.mood prediction))
                 (get_default kvs "language" (Str "en")) = inr q.
Proof.
  rewrite api_predict_log in Hsent.
  destruct data as [| b | z | x | s | l | kvs];
    try (rewrite api_predict_try_not_dict in Hsent by discriminate;
         contradiction).
  destruct (lookup kvs "message") as [text |] eqn:Hmsg.
  - rewrite (api_predict_try_message sv kvs text Hmsg) in Hsent.
    destruct (App.preprocess_text (App.nltk sv) text) as [e | p] eqn:Hpre;
      [exfalso; cbn in Hsent; destruct Hsent as [H | []]; discriminate H |].
    destruct (App.vectorizer_transform sv p) as [e | vector] eqn:Hvec;
      [exfalso; cbn in Hsent; destruct Hsent as [H | [H | []]];
       discriminate H |].
    destruct (App.model_predict sv vector) as [e | prediction] eqn:Hcls;
      [exfalso; cbn in Hsent; destruct Hsent as [H | [H | [H | []]]];
       discriminate H |].
    cbv zeta in Hsent.
    destruct (App.query _ _) as [e | q'] eqn:Hq;
      [exfalso; cbn in Hsent; destruct Hsent as [H | [H | [H | []]]];
       discriminate H |].
    cbn [snd In] in Hsent.
    destruct Hsent as [H | [H | [H | [H | []]]]]; try discriminate H.
    injection H as <- _ _ _.
    exists kvs, text, p, vector, prediction. repeat split; assumption.
  - exfalso.
    rewrite <- api_predict_log, (missing_key_rejected sv kvs Hmsg) in Hsent.
    exact Hsent.
Qed.

Lemma search_only_after_classification_witness :
  exists kvs text p vector prediction,
    Dict [("message", Str "so happy")] = Dict kvs
    /\ lookup kvs "message" = Some text
    /\ App.preprocess_text Nltk.reference text = inr p
    /\ App.vectorizer_transform (Fixture.services 1) p = inr vector
    /\ App.model_predict (Fixture.services 1) vector = inr prediction
    /\ App.query (App.search_mood
                    (get_default kvs "preference" (Str "match"))
                    (App.mood prediction))
                 (get_default kvs "language" (Str "en"))
       = inr "happy english".
Proof.
  apply (search_only_after_classification (Fixture.services 1)
           (Dict [("message", Str "so happy")])
           "happy english" "track" "IN" 12).
  vm_compute. right. right. right. left. reflexivity.
Defined.

(** The answer depends on the request only through its message, the
    keyword of its language and whether its preference is [uplift]. *)
Lemma api_predict_same (sv : App.services) (kvs kvs' : list (string * value)) :
  lookup kvs "message" = lookup kvs' "message" ->
  App.lang_keyword (get_default kvs "language" (Str "en"))
  = App.lang_keyword (get_default kvs' "language" (Str "en")) ->
  eq_str (get_default kvs "preference" (Str "match")) "uplift"
  = eq_str (get_default kvs' "preference" (Str "match")) "uplift" ->
  App.api_predict sv (Dict kvs) = App.api_predict sv (Dict kvs').
Proof.
  intros Hmsg Hlang Hpref.
  destruct (lookup kvs "message") as [text |] eqn:Hm.
  - unfold App.api_predict.
    rewrite (api_predict_try_message sv kvs text Hm),
            (api_predict_try_message sv kvs' text (eq_sym Hmsg)).
    destruct (App.preprocess_text (App.nltk sv) text) as [e | p];
      [reflexivity |].
    destruct (App.vectorizer_transform sv p) as [e | vector]; [reflexivity |].
    destruct (App.model_predict sv vector) as [e | prediction];
      [reflexivity |].
    cbv zeta. unfold App.query. rewrite !search_mood_spec, Hpref, Hlang.
    reflexivity.
  - rewrite (missing_key_rejected sv kvs Hm),
            (missing_key_rejected sv kvs' (eq_sym Hmsg)).
    reflexivity.
Qed.

(** A request whose language is absent, or is any value whose keyword is
    the default one (an unknown code, a number, null), is answered exactly
    like the same request with language [en] (the entry put in front is
    the one a lookup finds). *)
Theorem language_falls_back_to_en (sv : App.services)
    (kvs : list (string * value))
    (Hdefault : App.lang_keyword (get_default kvs "language" (Str "en"))
                = inr "english") :
  App.api_predict sv (Dict kvs)
  = App.api_predict sv (Dict (("language", Str "en") :: kvs)).
Proof.
  apply api_predict_same.
  - reflexivity.
  - rewrite Hdefault. reflexivity.
  - reflexivity.
Qed.

Lemma language_falls_back_to_en_witness :
  App.api_predict (Fixture.services 1)
    (Dict [("message", Str "so happy"); ("language", Str "fr")])
  = App.api_predict (Fixture.services 1)
      (Dict [ ("language", Str "en"); ("message", Str "so happy");
              ("language", Str "fr") ]).
Proof.
  apply (language_falls_back_to_en (Fixture.services 1)
           [("message", Str "so happy"); ("language", Str "fr")]).
  reflexivity.
Defined.

(** A request whose preference is absent, or is anything but the string
    [uplift] (another string, a number, null, a list), is answered exactly
    like the same request with preference [match]. *)
Theorem preference_other_than_uplift_is_match (sv : App.services)
    (kvs : list (string * value))
    (Hother : eq_str (get_default kvs "preference" (Str "match")) "uplift"
              = false) :
  App.api_predict sv (Dict kvs)
  = App.api_predict sv (Dict (("preference", Str "match") :: kvs)).
Proof.
  apply api_predict_same.
  - reflexivity.
  - reflexivity.
  - rewrite Hother. reflexivity.
Qed.

Lemma preference_other_than_uplift_is_match_witness :
  App.api_predict (Fixture.services 0)
    (Dict [("message", Str "so sad"); ("preference", List [Str "uplift"])])
  = App.api_predict (Fixture.services 0)
      (Dict [ ("preference", Str "match"); ("message", Str "so sad");
              ("preference", List [Str "uplift"]) ]).
Proof.
  apply (preference_other_than_uplift_is_match (Fixture.services 0)
           [("message", Str "so sad"); ("preference", List [Str "uplift"])]).
  reflexivity.
Defined.

(* ===================================================================== *)
(** ** Further properties of the result shaper                            *)
(* ===================================================================== *)

(** What the loop returns is what it was given, then one record per
    track. *)
Lemma songs_loop_inv (tracks acc out : list value) :
  App.songs_loop tracks acc = inr out ->
  exists shaped,
    out = (acc ++ shaped)%list
    /\ Forall2 (fun track s => App.song track = inr s) tracks shaped.
Proof.
  revert acc. induction tracks as [| track tracks IH]; intros acc Hloop;
    cbn [App.songs_loop] in Hloop.
  - injection Hloop as <-. exists []. split; [now rewrite app_nil_r |].
    constructor.
  - destruct (App.song track) as [e | s] eqn:Hs; [discriminate Hloop |].
    cbn [App.and_then] in Hloop.
    destruct (IH _ Hloop) as (shaped & -> & Hall).
    exists (s :: shaped). split.
    + now rewrite <- app_assoc.
    + now constructor.
Qed.

(** For any answer of the provider, well formed or not: when the shaper
    returns a list, the answer had a list of items under [tracks], and
    the list returned has exactly one record per item, in the order of the
    items, each the record of its item.  Otherwise nothing is returned. *)
Theorem songs_all_or_nothing (results : value) (shaped : list value)
    (Hok : App.songs results = inr shaped) :
  exists tracks items l,
    getitem results "tracks" = inr tracks
    /\ getitem tracks "items" = inr items
    /\ iter items = inr l
    /\ length shaped = length l
    /\ Forall2 (fun track s => App.song track = inr s) l shaped.
Proof.
  unfold App.songs in Hok.
  destruct (getitem results "tracks") as [e | tracks]; [discriminate Hok |].
  cbn [App.and_then] in Hok.
  destruct (getitem tracks "items") as [e | items] eqn:Hitems;
    [discriminate Hok |].
  cbn [App.and_then] in Hok.
  destruct (iter items) as [e | l] eqn:Hiter; [discriminate Hok |].
  cbn [App.and_then] in Hok.
  destruct (songs_loop_inv _ _ _ Hok) as (shaped' & -> & Hall).
  exists tracks, items, l. cbn [app].
  repeat split; try assumption; try reflexivity.
  symmetry. exact (Forall2_length Hall).
Qed.

Lemma songs_all_or_nothing_witness :
  exists tracks items l,
    getitem (Provider.results Fixture.tracks) "tracks" = inr tracks
    /\ getitem tracks "items" = inr items
    /\ iter items = inr l
    /\ length (map Provider.record Fixture.tracks) = length l
    /\ Forall2 (fun track s => App.song track = inr s) l
         (map Provider.record Fixture.tracks).
Proof.
  apply (songs_all_or_nothing (Provider.results Fixture.tracks)).
  reflexivity.
Defined.

(** The record of a track, for any value the provider sends as a track:
    when one is built, the track had the keys [id], [name], [artists],
    [album], [preview_url] and [external_urls]; the record has exactly
    the six entries below in this order; and its image is the placeholder
    whenever the album's [images] is empty or null, the [url] of the
    first image otherwise. *)
Theorem song_record_shape (track s : value)
    (Hok : App.song track = inr s) :
  exists id name artists artist0 artist album images image_url preview
         external_urls spotify_url,
    getitem track "id" = inr id
    /\ getitem track "name" = inr name
    /\ getitem track "artists" = inr artists
    /\ getitem0 artists = inr artist0
    /\ getitem artist0 "name" = inr artist
    /\ getitem track "album" = inr album
    /\ getitem album "images" = inr images
    /\ getitem track "preview_url" = inr preview
    /\ getitem track "external_urls" = inr external_urls
    /\ getitem external_urls "spotify" = inr spotify_url
    /\ s = Dict [ ("id", id); ("song_name", name); ("artist", artist);
                  ("image_url", image_url); ("preview_url", preview);
                  ("spotify_url", spotify_url) ]
    /\ (truthy images = false -> image_url = Str App.placeholder)
    /\ (truthy images = true ->
        exists image0, getitem0 images = inr image0
                       /\ getitem image0 "url" = inr image_url).
Proof.
  unfold App.song in Hok.
  repeat match type of Hok with
         | App.and_then ?r _ = _ =>
             let H := fresh "Hget" in
             destruct r as [? | ?] eqn:H;
             [discriminate Hok | cbn [App.and_then] in Hok]
         end.
  injection Hok as <-.
  do 11 eexists.
  repeat (split; [eassumption || reflexivity |]).
  destruct (truthy _) eqn:Htruthy in Hget6.
  - split; [intros Hf; rewrite Hf in Htruthy; discriminate Htruthy |].
    intros _.
    destruct (getitem0 _) as [e | image0] eqn:H0 in Hget6;
      [discriminate Hget6 |].
    cbn [App.and_then] in Hget6. exists image0. split; assumption.
  - split; [intros _; now injection Hget6 as <- |].
    intros Ht. rewrite Ht in Htruthy. discriminate Htruthy.
Qed.

Lemma song_record_shape_witness :
  exists id name artists artist0 artist album images image_url preview
         external_urls spotify_url,
    getitem (Provider.to_value Fixture.no_art) "id" = inr id
    /\ getitem (Provider.to_value Fixture.no_art) "name" = inr name
    /\ getitem (Provider.to_value Fixture.no_art) "artists" = inr artists
    /\ getitem0 artists = inr artist0
    /\ getitem artist0 "name" = inr artist
    /\ getitem (Provider.to_value Fixture.no_art) "album" = inr album
    /\ getitem album "images" = inr images
    /\ getitem (Provider.to_value Fixture.no_art) "preview_url" = inr preview
    /\ getitem (Provider.to_value Fixture.no_art) "external_urls"
       = inr external_urls
    /\ getitem external_urls "spotify" = inr spotify_url
    /\ Provider.record Fixture.no_art
       = Dict [ ("id", id); ("song_name", name); ("artist", artist);
                ("image_url", image_url); ("preview_url", preview);
                ("spotify_url", spotify_url) ]
    /\ (truthy images = false -> image_url = Str App.placeholder)
    /\ (truthy images = true ->
        exists image0, getitem0 images = inr image0
                       /\ getitem image0 "url" = inr image_url).
Proof.
  apply (song_record_shape (Provider.to_value Fixture.no_art)
           (Provider.record Fixture.no_art)).
  reflexivity.
Defined.

(** An album whose [images] is null gets the placeholder like an album
    with an empty list. *)
Example null_images_get_placeholder :
  App.song (Dict [ ("id", Str "t"); ("name", Str "n");
                   ("artists", List [Dict [("name", Str "a")]]);
                   ("album", Dict [("images", None_)]);
                   ("preview_url", None_);
                   ("external_urls", Dict [("spotify", Str "u")]) ])
  = inr (Dict [ ("id", Str "t"); ("song_name", Str "n"); ("artist", Str "a");
                ("image_url", Str App.placeholder); ("preview_url", None_);
                ("spotify_url", Str "u") ]).
Proof. reflexivity. Qed.

(** A preview that is null is kept, but a track without the key
    [preview_url] raises [KeyError], and with it the whole answer is lost
    however many well-formed tracks come before and after it. *)
Theorem absent_preview_key_fails (before after : list Provider.track)
    (t : Provider.track)
    (Hextra : lookup (Provider.extra t) "preview_url" = None) :
  let track :=
    Dict ([ ("album",
             Dict [("images",
                    List (map Provider.image_value (Provider.images t)))]);
            ("artists",
             List (map Provider.artist_value
                       (Provider.artist t :: Provider.other_artists t)));
            ("external_urls", Dict [("spotify", Str (Provider.spotify t))]);
            ("id", Str (Provider.id t));
            ("name", Str (Provider.name t)) ] ++ Provider.extra t)%list in
  App.song track = inl (KeyError "preview_url")
  /\ App.songs
       (Dict [("tracks",
               Dict [("items",
                      List (map Provider.to_value before
                            ++ track :: map Provider.to_value after)%list)])])
     = inl (KeyError "preview_url").
Proof.
  cbv zeta.
  match goal with
  | |- App.song ?tr = _ /\ _ =>
      assert (Hsong : App.song tr = inl (KeyError "preview_url"))
  end.
  { unfold App.song. cbn -[App.placeholder].
    destruct (Provider.images t) as [| u rest]; cbn -[App.placeholder];
      now rewrite Hextra. }
  split; [exact Hsong |].
  unfold App.songs. cbn [getitem lookup String.eqb Ascii.eqb Bool.eqb
                         App.and_then iter].
  cbn.
  apply (songs_loop_raises _ _ [] _ (map Provider.record before)).
  - induction before as [| b before IH]; constructor;
      [apply song_to_value | exact IH].
  - exact Hsong.
Qed.

Lemma absent_preview_key_fails_witness :
  App.songs
    (Dict [("tracks",
            Dict [("items",
                   List [ Provider.to_value Fixture.with_art;
                          Dict [ ("album", Dict [("images", List [])]);
                                 ("artists",
                                  List [Dict [("name", Str "Sonu Nigam")]]);
                                 ("external_urls",
                                  Dict [("spotify",
                                         Str "https://open.spotify.com/track/4uLU6hMCjMI75M1A2tKUQC")]);
                                 ("id", Str "4uLU6hMCjMI75M1A2tKUQC");
                                 ("name", Str "Kal Ho Naa Ho");
                                 ("popularity", Int 61) ];
                          Provider.to_value Fixture.with_art ])])])
  = inl (KeyError "preview_url").
Proof.
  apply (absent_preview_key_fails [Fixture.with_art] [Fixture.with_art]
           Fixture.no_art).
  reflexivity.
Defined.

(* ===================================================================== *)
(** ** Further properties of the two normalizers                          *)
(* ===================================================================== *)

Lemma lower_char_idempotent (c : ascii) :
  lower_char (lower_char c) = lower_char c.
Proof.
  destruct c as [[|] [|] [|] [|] [|] [|] [|] [|]]; vm_compute; reflexivity.
Qed.

Lemma lower_idempotent (s : string) : lower (lower s) = lower s.
Proof.
  induction s as [| c s IH]; cbn [lower]; [reflexivity |].
  now rewrite lower_char_idempotent, IH.
Qed.

(** Both normalizers ignore case: a text and its lowercase form get the
    same normalized text, at serving time and at training time. *)
Theorem preprocess_text_ignores_case (nltk : Nltk.t) (s : string)
    (stop_words : list string) :
  App.preprocess_text nltk (Str (lower s)) = App.preprocess_text nltk (Str s)
  /\ Train.preprocess_text nltk (Str (lower s)) stop_words
     = Train.preprocess_text nltk (Str s) stop_words.
Proof.
  unfold App.preprocess_text, Train.preprocess_text.
  now rewrite lower_idempotent.
Qed.

Lemma all_chars_impl (p q : ascii -> bool) (s : string) :
  (forall c, p c = true -> q c = true) ->
  all_chars p s = true -> all_chars q s = true.
Proof.
  intros Hpq. induction s as [| c s IH]; cbn [all_chars]; [reflexivity |].
  intros H. apply andb_true_iff in H as [Hc Hs].
  now rewrite (Hpq _ Hc), (IH Hs).
Qed.

Lemma isalpha_isalnum (w : string) : isalpha w = true -> isalnum w = true.
Proof.
  unfold isalpha, isalnum. intros H.
  apply andb_true_iff in H as [Hne Hall]. rewrite Hne. cbn [andb].
  apply (all_chars_impl is_alpha); [| exact Hall].
  intros c Hc. unfold is_alnum. now rewrite Hc.
Qed.

Lemma filter_same {A : Type} (f g : A -> bool) (l : list A) :
  Forall (fun x => f x = g x) l -> filter f l = filter g l.
Proof.
  induction 1 as [| x l Hx _ IH]; cbn [filter]; [reflexivity |].
  now rewrite Hx, IH.
Qed.

Lemma filter_filter {A : Type} (f g : A -> bool) (l : list A) :
  filter g (filter f l) = filter (fun x => f x && g x) l.
Proof.
  induction l as [| x l IH]; cbn [filter]; [reflexivity |].
  destruct (f x); cbn [filter andb]; [| exact IH].
  destruct (g x); now rewrite IH.
Qed.

Lemma filter_all {A : Type} (f : A -> bool) (l : list A) :
  Forall (fun x => f x = true) l -> filter f l = l.
Proof.
  induction 1 as [| x l Hx _ IH]; cbn [filter]; [reflexivity |].
  now rewrite Hx, IH.
Qed.

(** On a text none of whose tokens mixes letters with digits or is a
    number, the serving-time normalizer returns the stems of exactly the
    tokens the training-time normalizer returns: apart from stemming the
    two differ only on tokens with digits. *)
Theorem serving_is_stemmed_training (nltk : Nltk.t) (s : string)
    (Hletters : Forall (fun w => isalnum w = true -> isalpha w = true)
                       (Nltk.word_tokenize nltk (lower s))) :
  let kept :=
    filter (fun w => negb (mem w (Nltk.stop_words nltk)))
           (filter isalpha (Nltk.word_tokenize nltk (lower s))) in
  Train.preprocess_text nltk (Str s) (Nltk.stop_words nltk) = join kept
  /\ App.preprocess_text nltk (Str s)
     = inr (join (map (Nltk.stem nltk) kept)).
Proof.
  cbv zeta. split; [reflexivity |].
  unfold App.preprocess_text.
  rewrite processed_tokens_filter_map, filter_filter.
  do 3 f_equal. apply filter_same.
  eapply Forall_impl; [| exact Hletters].
  intros w Hw. cbv beta.
  destruct (isalpha w) eqn:Ha.
  - now rewrite (isalpha_isalnum w Ha).
  - cbv beta in Hw. destruct (isalnum w) eqn:Hn; [| reflexivity].
    exfalso.
    assert (Halpha : isalpha w = true) by (apply Hw; reflexivity || exact Hn).
    congruence.
Qed.

Lemma serving_is_stemmed_training_witness :
  Train.preprocess_text Nltk.reference (Str "Running late AGAIN")
    (Nltk.stop_words Nltk.reference) = "running late"
  /\ App.preprocess_text Nltk.reference (Str "Running late AGAIN")
     = inr "run late".
Proof.
  assert (Htokens : Nltk.word_tokenize Nltk.reference
                      (lower "Running late AGAIN")
                    = ["running"; "late"; "again"])
    by (vm_compute; reflexivity).
  destruct (serving_is_stemmed_training Nltk.reference "Running late AGAIN")
    as [Htrain Hserve].
  - rewrite Htokens.
    repeat (apply Forall_cons || apply Forall_nil); intros _;
      vm_compute; reflexivity.
  - split.
    + rewrite Htrain. vm_compute. reflexivity.
    + rewrite Hserve. vm_compute. reflexivity.
Defined.

(** The training-time normalizer, which does not stem, reproduces its own
    output whenever the tokens it keeps are unchanged by lowercasing and
    the tokenizer recovers them from their blank-separated concatenation.
    The condition is on tokens of the input here, as nothing is stemmed. *)
Theorem train_preprocess_text_idempotent (nltk : Nltk.t) (s : string)
    (stop_words : list string) :
  let kept :=
    filter (fun w => negb (mem w stop_words))
           (filter isalpha (Nltk.word_tokenize nltk (lower s))) in
  Forall (fun w => lower w = w) kept ->
  Nltk.word_tokenize nltk (join kept) = kept ->
  Train.preprocess_text nltk
    (Str (Train.preprocess_text nltk (Str s) stop_words)) stop_words
  = Train.preprocess_text nltk (Str s) stop_words.
Proof.
  cbv zeta. intros Hlower Htok.
  unfold Train.preprocess_text at 1 3.
  unfold Train.preprocess_text.
  rewrite (lower_join _ Hlower), Htok.
  f_equal.
  rewrite (filter_all isalpha).
  - apply filter_all. apply Forall_forall. intros w Hw.
    now apply filter_In in Hw as [_ Hw].
  - apply Forall_forall. intros w Hw.
    apply filter_In in Hw as [Hw _]. now apply filter_In in Hw as [_ Hw].
Qed.

Lemma train_preprocess_text_idempotent_witness :
  Train.preprocess_text Nltk.reference
    (Str (Train.preprocess_text Nltk.reference
            (Str "The UPS trucks are late") Nltk.english_stopwords))
    Nltk.english_stopwords
  = Train.preprocess_text Nltk.reference
      (Str "The UPS trucks are late") Nltk.english_stopwords.
Proof.
  assert (Hkept :
            filter (fun w => negb (mem w Nltk.english_stopwords))
              (filter isalpha
                 (Nltk.word_tokenize Nltk.reference
                    (lower "The UPS trucks are late")))
            = ["ups"; "trucks"; "late"]) by (vm_compute; reflexivity).
  apply (train_preprocess_text_idempotent Nltk.reference
           "The UPS trucks are late" Nltk.english_stopwords);
    cbv zeta; rewrite Hkept.
  - repeat (apply Forall_cons || apply Forall_nil); vm_compute; reflexivity.
  - vm_compute. reflexivity.
Defined.

(* ===================================================================== *)
(** ** Start-up of the server                                             *)
(* ===================================================================== *)

Lemma unset_false (x : option string) :
  Startup.unset x = false <-> exists s, x = Some s /\ s <> "".
Proof.
  destruct x as [s |]; cbn [Startup.unset].
  - split.
    + intros H. exists s. split; [reflexivity |].
      intros ->. discriminate H.
    + intros (s' & [= <-] & Hne). now apply String.eqb_neq.
  - split; [discriminate | intros (s & H & _); discriminate H].
Qed.





(* ===================================================================== *)
(** ** The training script                                                *)
(* ===================================================================== *)

Section TrainingRuns.

Variable tk : TrainModel.toolkit.

(** The runs of [train] that reach the end, and their log. *)
Lemma train_finished (stop_words : list string) (df : TrainModel.dataframe)
    (log0 log : list TrainModel.event) :
  TrainModel.train tk stop_words df log0 = (inr tt, log) ->
  exists X y X_train X_test y_train y_test vectorizer X_train_tfidf
         X_test_tfidf model y_pred accuracy,
    TrainModel.features_and_target tk stop_words df = inr (X, y)
    /\ TrainModel.train_test_split tk X y
       = inr (X_train, X_test, y_train, y_test)
    /\ TrainModel.fit_transform tk X_train = inr (vectorizer, X_train_tfidf)
    /\ TrainModel.transform tk vectorizer X_test = inr X_test_tfidf
    /\ TrainModel.fit tk X_train_tfidf y_train = inr model
    /\ TrainModel.predict tk model X_test_tfidf = inr y_pred
    /\ TrainModel.accuracy_score tk y_test y_pred = inr accuracy
    /\ TrainModel.makedirs tk TrainModel.MODEL_DIR = inr tt
    /\ TrainModel.dump_vectorizer tk vectorizer TrainModel.VECTORIZER_PATH
       = inr tt
    /\ TrainModel.dump_model tk model TrainModel.MODEL_PATH = inr tt
    /\ log = (log0 ++
              [TrainModel.Split X y; TrainModel.FitTransform X_train;
               TrainModel.Transform X_test; TrainModel.Fit y_train;
               TrainModel.Predict; TrainModel.AccuracyScore y_test y_pred;
               TrainModel.Makedirs TrainModel.MODEL_DIR;
               TrainModel.Dump TrainModel.VECTORIZER_PATH;
               TrainModel.Dump TrainModel.MODEL_PATH])%list.
Proof.
  unfold TrainModel.train, TrainModel.bind, TrainModel.lift, TrainModel.call,
    TrainModel.ret.
  destruct (TrainModel.features_and_target tk stop_words df) as [e | [X y]];
    [discriminate |].
  destruct (TrainModel.train_test_split tk X y)
    as [e | [[[X_train X_test] y_train] y_test]] eqn:Hsplit; [discriminate |].
  destruct (TrainModel.fit_transform tk X_train)
    as [e | [vectorizer X_train_tfidf]] eqn:Hft; [discriminate |].
  destruct (TrainModel.transform tk vectorizer X_test)
    as [e | X_test_tfidf] eqn:Htr; [discriminate |].
  destruct (TrainModel.fit tk X_train_tfidf y_train)
    as [e | model] eqn:Hfit; [discriminate |].
  destruct (TrainModel.predict tk model X_test_tfidf)
    as [e | y_pred] eqn:Hpred; [discriminate |].
  destruct (TrainModel.accuracy_score tk y_test y_pred)
    as [e | accuracy] eqn:Hacc; [discriminate |].
  destruct (TrainModel.makedirs tk TrainModel.MODEL_DIR)
    as [e | []] eqn:Hmk; [discriminate |].
  destruct (TrainModel.dump_vectorizer tk vectorizer
              TrainModel.VECTORIZER_PATH) as [e | []] eqn:Hdv;
    [discriminate |].
  destruct (TrainModel.dump_model tk model TrainModel.MODEL_PATH)
    as [e | []] eqn:Hdm; [discriminate |].
  intros [= <-].
  exists X, y, X_train, X_test, y_train, y_test, vectorizer, X_train_tfidf,
    X_test_tfidf, model, y_pred, accuracy.
  repeat (split; [first [reflexivity | assumption] |]).
  repeat rewrite <- app_assoc. reflexivity.
Qed.

(** Where a [Dump] in the log of [train] comes from. *)
Lemma train_dump (stop_words : list string) (df : TrainModel.dataframe)
    (log0 log : list TrainModel.event) (r : result unit) (path : string) :
  TrainModel.train tk stop_words df log0 = (r, log) ->
  In (TrainModel.Dump path) log ->
  In (TrainModel.Dump path) log0
  \/ exists X y X_train X_test y_train y_test vectorizer X_train_tfidf
            X_test_tfidf model y_pred accuracy,
       TrainModel.features_and_target tk stop_words df = inr (X, y)
       /\ TrainModel.train_test_split tk X y
          = inr (X_train, X_test, y_train, y_test)
       /\ TrainModel.fit_transform tk X_train
          = inr (vectorizer, X_train_tfidf)
       /\ TrainModel.transform tk vectorizer X_test = inr X_test_tfidf
       /\ TrainModel.fit tk X_train_tfidf y_train = inr model
       /\ TrainModel.predict tk model X_test_tfidf = inr y_pred
       /\ TrainModel.accuracy_score tk y_test y_pred = inr accuracy
       /\ TrainModel.makedirs tk TrainModel.MODEL_DIR = inr tt
       /\ (path = TrainModel.VECTORIZER_PATH
           \/ (path = TrainModel.MODEL_PATH
               /\ TrainModel.dump_vectorizer tk vectorizer
                    TrainModel.VECTORIZER_PATH = inr tt)).
Proof.
  unfold TrainModel.train, TrainModel.bind, TrainModel.lift, TrainModel.call,
    TrainModel.ret.
  assert (Hno : forall l : list TrainModel.event,
            In (TrainModel.Dump path) (log0 ++ l) ->
            ~ In (TrainModel.Dump path) l ->
            In (TrainModel.Dump path) log0).
  { intros l H Hl. apply in_app_or in H as [H | H]; [exact H | now elim Hl]. }
  destruct (TrainModel.features_and_target tk stop_words df) as [e | [X y]] eqn:HXy.
  { intros [= _ <-] H. now left. }
  destruct (TrainModel.train_test_split tk X y)
    as [e | [[[X_train X_test] y_train] y_test]] eqn:Hsplit.
  { intros [= _ <-] H. left. apply (Hno _ H). cbn. intuition discriminate. }
  destruct (TrainModel.fit_transform tk X_train)
    as [e | [vectorizer X_train_tfidf]] eqn:Hft.
  { intros [= _ <-] H. left. repeat rewrite <- app_assoc in H.
    apply (Hno _ H). cbn. intuition discriminate. }
  destruct (TrainModel.transform tk vectorizer X_test)
    as [e | X_test_tfidf] eqn:Htr.
  { intros [= _ <-] H. left. repeat rewrite <- app_assoc in H.
    apply (Hno _ H). cbn. intuition discriminate. }
  destruct (TrainModel.fit tk X_train_tfidf y_train)
    as [e | model] eqn:Hfit.
  { intros [= _ <-] H. left. repeat rewrite <- app_assoc in H.
    apply (Hno _ H). cbn. intuition discriminate. }
  destruct (TrainModel.predict tk model X_test_tfidf)
    as [e | y_pred] eqn:Hpred.
  { intros [= _ <-] H. left. repeat rewrite <- app_assoc in H.
    apply (Hno _ H). cbn. intuition discriminate. }
  destruct (TrainModel.accuracy_score tk y_test y_pred)
    as [e | accuracy] eqn:Hacc.
  { intros [= _ <-] H. left. repeat rewrite <- app_assoc in H.
    apply (Hno _ H). cbn. intuition discriminate. }
  destruct (TrainModel.makedirs tk TrainModel.MODEL_DIR)
    as [e | []] eqn:Hmk.
  { intros [= _ <-] H. left. repeat rewrite <- app_assoc in H.
    apply (Hno _ H). cbn. intuition discriminate. }
  destruct (TrainModel.dump_vectorizer tk vectorizer
              TrainModel.VECTORIZER_PATH) as [e | []] eqn:Hdv.
  { intros [= _ <-] H. repeat rewrite <- app_assoc in H.
    apply in_app_or in H as [H | H]; [now left | right].
    exists X, y, X_train, X_test, y_train, y_test, vectorizer, X_train_tfidf,
      X_test_tfidf, model, y_pred, accuracy.
    repeat (split; [first [reflexivity | assumption] |]). left.
    cbn in H. repeat destruct H as [H | H]; try discriminate H;
      try contradiction. now injection H as <-. }
  destruct (TrainModel.dump_model tk model TrainModel.MODEL_PATH)
    as [e | []] eqn:Hdm.
  - intros [= _ <-] H. repeat rewrite <- app_assoc in H.
    apply in_app_or in H as [H | H]; [now left | right].
    exists X, y, X_train, X_test, y_train, y_test, vectorizer, X_train_tfidf,
      X_test_tfidf, model, y_pred, accuracy.
    repeat (split; [first [reflexivity | assumption] |]).
    cbn in H. repeat destruct H as [H | H]; try discriminate H;
      try contradiction.
    + left. now injection H as <-.
    + right. split; [now injection H as <- | assumption].
  - intros [= _ <-] H. repeat rewrite <- app_assoc in H.
    apply in_app_or in H as [H | H]; [now left | right].
    exists X, y, X_train, X_test, y_train, y_test, vectorizer, X_train_tfidf,
      X_test_tfidf, model, y_pred, accuracy.
    repeat (split; [first [reflexivity | assumption] |]).
    cbn in H. repeat destruct H as [H | H]; try discriminate H;
      try contradiction.
    + left. now injection H as <-.
    + right. split; [now injection H as <- | assumption].
Qed.

End TrainingRuns.

(** A run of [train_model()] that reaches its end loaded the stopword
    list, read the data file, split the cleaned rows once, fitted the
    vectorizer on the training part only and only transformed the test
    part, fitted the classifier on the training part, scored its
    predictions for the test part against the test labels, and then wrote
    the vectorizer and the model.  Each of these calls succeeded, and the
    run made them once each and in this order; its other library calls
    are the cleaning of the rows in memory and the two constructors. *)
Theorem train_model_finished (tk : TrainModel.toolkit)
    (log : list TrainModel.event) :
  TrainModel.train_model tk = (TrainModel.Finished, log) ->
  exists stop_words df X y X_train X_test y_train y_test vectorizer
         X_train_tfidf X_test_tfidf model y_pred accuracy,
    TrainModel.stopwords_words tk "english" = inr stop_words
    /\ TrainModel.read_csv tk TrainModel.DATA_FILE = Startup.Loaded df
    /\ TrainModel.features_and_target tk stop_words df = inr (X, y)
    /\ TrainModel.train_test_split tk X y
       = inr (X_train, X_test, y_train, y_test)
    /\ TrainModel.fit_transform tk X_train = inr (vectorizer, X_train_tfidf)
    /\ TrainModel.transform tk vectorizer X_test = inr X_test_tfidf
    /\ TrainModel.fit tk X_train_tfidf y_train = inr model
    /\ TrainModel.predict tk model X_test_tfidf = inr y_pred
    /\ TrainModel.accuracy_score tk y_test y_pred = inr accuracy
    /\ TrainModel.makedirs tk "models" = inr tt
    /\ TrainModel.dump_vectorizer tk vectorizer "models/tfidf_vectorizer.pkl"
       = inr tt
    /\ TrainModel.dump_model tk model "models/emotion_classifier.pkl"
       = inr tt
    /\ log = [TrainModel.StopWords "english";
              TrainModel.ReadCsv "training/emotions.csv";
              TrainModel.Split X y; TrainModel.FitTransform X_train;
              TrainModel.Transform X_test; TrainModel.Fit y_train;
              TrainModel.Predict; TrainModel.AccuracyScore y_test y_pred;
              TrainModel.Makedirs "models";
              TrainModel.Dump "models/tfidf_vectorizer.pkl";
              TrainModel.Dump "models/emotion_classifier.pkl"].
Proof.
  unfold TrainModel.train_model.
  destruct (TrainModel.stopwords_words tk "english") as [e | stop_words]
    eqn:Hstop; [discriminate |].
  destruct (TrainModel.read_csv tk TrainModel.DATA_FILE) as [df | | e] eqn:Hcsv;
    try discriminate.
  destruct (TrainModel.train tk stop_words df _)
    as [[e | []] log'] eqn:Htrain; [discriminate |].
  intros [= <-].
  apply train_finished in Htrain
    as (X & y & X_train & X_test & y_train & y_test & vectorizer
        & X_train_tfidf & X_test_tfidf & model & y_pred & accuracy
        & HXy & Hsplit & Hft & Htr & Hfit & Hpred & Hacc & Hmk & Hdv & Hdm
        & ->).
  exists stop_words, df, X, y, X_train, X_test, y_train, y_test, vectorizer,
    X_train_tfidf, X_test_tfidf, model, y_pred, accuracy.
  repeat (split; [first [reflexivity | assumption] |]).
  reflexivity.
Qed.

Lemma train_model_finished_witness :
  exists X y X_train,
    TrainModel.features_and_target
      (TrainFixture.toolkit (inr Nltk.english_stopwords)
         (Startup.Loaded TrainFixture.df))
      Nltk.english_stopwords TrainFixture.df
    = inr (X, y)
    /\ X_train = ["feel happy today"; ""]
    /\ In (TrainModel.FitTransform X_train)
          (snd (TrainModel.train_model
                  (TrainFixture.toolkit (inr Nltk.english_stopwords)
                     (Startup.Loaded TrainFixture.df)))).
Proof.
  destruct (train_model_finished
              (TrainFixture.toolkit (inr Nltk.english_stopwords)
                 (Startup.Loaded TrainFixture.df))
              (snd (TrainModel.train_model
                      (TrainFixture.toolkit (inr Nltk.english_stopwords)
                         (Startup.Loaded TrainFixture.df)))))
    as (stop_words & df & X & y & X_train & X_test & y_train & y_test
        & vectorizer & X_train_tfidf & X_test_tfidf & model & y_pred
        & accuracy & Hstop & Hcsv & HXy & Hsplit & Hft & Htr & Hfit & Hpred
        & Hacc & Hmk & Hdv & Hdm & Hlog).
  - vm_compute. reflexivity.
  - injection Hcsv as <-. injection Hstop as <-.
    exists X, y, X_train. split; [exact HXy |].
    split.
    + assert (HX : TrainModel.features_and_target
                     (TrainFixture.toolkit (inr Nltk.english_stopwords)
                        (Startup.Loaded TrainFixture.df))
                     Nltk.english_stopwords TrainFixture.df
                   = inr (["feel happy today"; ""; ""],
                          [TrainModel.Value (Int 1); TrainModel.Value (Int 0);
                           TrainModel.Value (Int 2)]))
        by (vm_compute; reflexivity).
      rewrite HX in HXy. injection HXy as <- <-.
      cbn in Hsplit. now injection Hsplit as <- _ _ _.
    + rewrite Hlog. cbn. auto.
Defined.

(** An artifact file is written only after the whole of training and
    evaluation went through; the only files written are the two the server
    loads at start-up, and the model file is written only after the
    vectorizer file was. *)
Theorem artifacts_written_after_evaluation (tk : TrainModel.toolkit)
    (path : string) :
  In (TrainModel.Dump path) (snd (TrainModel.train_model tk)) ->
  exists stop_words df X y X_train X_test y_train y_test vectorizer
         X_train_tfidf X_test_tfidf model y_pred accuracy,
    TrainModel.stopwords_words tk "english" = inr stop_words
    /\ TrainModel.read_csv tk TrainModel.DATA_FILE = Startup.Loaded df
    /\ TrainModel.features_and_target tk stop_words df = inr (X, y)
    /\ TrainModel.train_test_split tk X y
       = inr (X_train, X_test, y_train, y_test)
    /\ TrainModel.fit_transform tk X_train = inr (vectorizer, X_train_tfidf)
    /\ TrainModel.transform tk vectorizer X_test = inr X_test_tfidf
    /\ TrainModel.fit tk X_train_tfidf y_train = inr model
    /\ TrainModel.predict tk model X_test_tfidf = inr y_pred
    /\ TrainModel.accuracy_score tk y_test y_pred = inr accuracy
    /\ TrainModel.makedirs tk TrainModel.MODEL_DIR = inr tt
    /\ (path = Startup.vectorizer_path
        \/ (path = Startup.model_path
            /\ TrainModel.dump_vectorizer tk vectorizer
                 TrainModel.VECTORIZER_PATH = inr tt)).
Proof.
  unfold TrainModel.train_model.
  destruct (TrainModel.stopwords_words tk "english") as [e | stop_words]
    eqn:Hstop.
  { cbn. intros [H | []]. discriminate H. }
  destruct (TrainModel.read_csv tk TrainModel.DATA_FILE) as [df | | e] eqn:Hcsv.
  - destruct (TrainModel.train tk stop_words df _) as [r log] eqn:Htrain.
    intros H.
    assert (Hin : In (TrainModel.Dump path) log) by (now destruct r).
    destruct (train_dump tk stop_words df _ log r path Htrain Hin)
      as [Hin0 | (X & y & X_train & X_test & y_train & y_test & vectorizer
                  & X_train_tfidf & X_test_tfidf & model & y_pred & accuracy
                  & HXy & Hsplit & Hft & Htr & Hfit & Hpred & Hacc & Hmk
                  & Hpath)].
    + destruct Hin0 as [Hin0 | [Hin0 | []]]; discriminate Hin0.
    + exists stop_words, df, X, y, X_train, X_test, y_train, y_test,
        vectorizer, X_train_tfidf, X_test_tfidf, model, y_pred, accuracy.
      repeat (split; [first [reflexivity | assumption] |]).
      exact Hpath.
  - cbn. intros [H | [H | []]]; discriminate H.
  - cbn. intros [H | [H | []]]; discriminate H.
Qed.

Lemma artifacts_written_after_evaluation_witness :
  exists y_test y_pred,
    TrainModel.accuracy_score
      (TrainFixture.toolkit (inr Nltk.english_stopwords)
         (Startup.Loaded TrainFixture.df)) y_test y_pred
    = inr tt.
Proof.
  destruct (artifacts_written_after_evaluation
              (TrainFixture.toolkit (inr Nltk.english_stopwords)
                 (Startup.Loaded TrainFixture.df))
              "models/emotion_classifier.pkl")
    as (stop_words & df & X & y & X_train & X_test & y_train & y_test
        & vectorizer & X_train_tfidf & X_test_tfidf & model & y_pred
        & accuracy & _ & _ & _ & _ & _ & _ & _ & _ & Hacc & _).
  - vm_compute. auto 12.
  - exists y_test, y_pred. now destruct accuracy.
Defined.

(** The script ends by its early [return] exactly when the stopword list
    could be loaded and the data file is missing, and then it has split,
    fitted and written nothing: the read of the data file was its last
    library call.  A missing stopword corpus and every other failure of a
    step leave the script as an exception. *)
Theorem train_model_returns_iff (tk : TrainModel.toolkit) :
  (fst (TrainModel.train_model tk) = TrainModel.Returned
   <-> (exists stop_words,
          TrainModel.stopwords_words tk "english" = inr stop_words)
       /\ TrainModel.read_csv tk TrainModel.DATA_FILE = Startup.NotFound)
  /\ (fst (TrainModel.train_model tk) = TrainModel.Returned ->
      snd (TrainModel.train_model tk)
      = [TrainModel.StopWords "english";
         TrainModel.ReadCsv "training/emotions.csv"])
  /\ (forall e,
        TrainModel.stopwords_words tk "english" = inl e ->
        TrainModel.train_model tk
        = (TrainModel.Raised e, [TrainModel.StopWords "english"])).
Proof.
  unfold TrainModel.train_model.
  destruct (TrainModel.stopwords_words tk "english") as [e0 | stop_words].
  { cbn. split; [split; [discriminate | intros [[sw H] _]; discriminate H] |].
    split; [discriminate |]. now intros e [= ->]. }
  destruct (TrainModel.read_csv tk TrainModel.DATA_FILE) as [df | | e0].
  - destruct (TrainModel.train tk stop_words df _) as [[e0 | u] log]; cbn;
      (split; [split; [discriminate | intros [_ H]; discriminate H] |]);
      (split; [discriminate | intros e H; discriminate H]).
  - cbn. split; [split; [intros _ | reflexivity] |].
    + split; [now exists stop_words | reflexivity].
    + split; [reflexivity | intros e H; discriminate H].
  - cbn. split; [split; [discriminate | intros [_ H]; discriminate H] |].
    split; [discriminate | intros e H; discriminate H].
Qed.

Lemma train_model_returns_iff_witness :
  TrainModel.train_model
    (TrainFixture.toolkit (inr Nltk.english_stopwords) Startup.NotFound)
  = (TrainModel.Returned,
     [TrainModel.StopWords "english";
      TrainModel.ReadCsv "training/emotions.csv"]).
Proof.
  destruct (train_model_returns_iff
              (TrainFixture.toolkit (inr Nltk.english_stopwords)
                 Startup.NotFound))
    as [[_ Hret] [Hlog _]].
  assert (Hreturned : fst (TrainModel.train_model
                             (TrainFixture.toolkit
                                (inr Nltk.english_stopwords)
                                Startup.NotFound))
                      = TrainModel.Returned).
  { apply Hret. split; [now exists Nltk.english_stopwords | reflexivity]. }
  specialize (Hlog Hreturned).
  destruct (TrainModel.train_model
              (TrainFixture.toolkit (inr Nltk.english_stopwords)
                 Startup.NotFound)) as [r log].
  cbn in Hreturned, Hlog. now subst.
Defined.

(** No row of the data file is dropped before the split: the cleaned text
    column has one entry per row, in the order of the rows, and the labels
    are the file's own.  A row whose text is missing or is not a string is
    kept, with the cleaning of the empty text or the empty text itself. *)
Theorem no_row_is_dropped (tk : TrainModel.toolkit)
    (stop_words : list string) (df : TrainModel.dataframe)
    (X : list string) (y : list TrainModel.cell) :
  TrainModel.features_and_target tk stop_words df = inr (X, y) ->
  exists text,
    TrainModel.column df "text" = inr text
    /\ TrainModel.column df "label" = inr y
    /\ length X = length text
    /\ forall i c,
         nth_error text i = Some c ->
         nth_error X i
         = Some match c with
                | TrainModel.Value (Str s) =>
                    Train.preprocess_text (TrainModel.nltk tk) (Str s)
                      stop_words
                | TrainModel.NaN =>
                    Train.preprocess_text (TrainModel.nltk tk) (Str "")
                      stop_words
                | TrainModel.Value _ => ""
                end.
Proof.
  unfold TrainModel.features_and_target.
  destruct (TrainModel.column df "text") as [e | text]; [discriminate |].
  destruct (TrainModel.column df "label") as [e | label]; [discriminate |].
  cbv zeta. intros [= <- <-].
  exists text. split; [reflexivity |]. split; [reflexivity |].
  split; [now rewrite !length_map |].
  intros i c Hc.
  rewrite map_map. rewrite nth_error_map, Hc. cbn [option_map].
  f_equal. destruct c as [| v]; [reflexivity |].
  destruct v; reflexivity.
Qed.

Lemma no_row_is_dropped_witness :
  exists X y,
    TrainModel.features_and_target
      (TrainFixture.toolkit (inr Nltk.english_stopwords) Startup.NotFound)
      Nltk.english_stopwords TrainFixture.df = inr (X, y)
    /\ length X = 3%nat
    /\ nth_error X 2%nat = Some "".
Proof.
  exists ["feel happy today"; ""; ""],
         [TrainModel.Value (Int 1); TrainModel.Value (Int 0);
          TrainModel.Value (Int 2)].
  assert (HXy : TrainModel.features_and_target
                  (TrainFixture.toolkit (inr Nltk.english_stopwords)
                     Startup.NotFound)
                  Nltk.english_stopwords TrainFixture.df
                = inr (["feel happy today"; ""; ""],
                       [TrainModel.Value (Int 1); TrainModel.Value (Int 0);
                        TrainModel.Value (Int 2)]))
    by (vm_compute; reflexivity).
  split; [exact HXy |].
  destruct (no_row_is_dropped _ _ _ _ _ HXy)
    as (text & Htext & _ & Hlen & Hrows).
  injection Htext as <-.
  split; [exact Hlen |].
  exact (Hrows 2%nat (TrainModel.Value (Int 3)) eq_refl).
Defined.
